(** * The streaming run controller of [frontend/app/page.tsx]

    A shallow embedding of the state-transition logic of the [Page]
    component: the React state cells, the [EventSource] reference, the three
    handlers [resetRun], [stopStream] and [startStream], the three stream
    listeners registered by [startStream] and the derived [overallStatus].

    React applies the state updates queued by one handler in the order they
    were queued, and handlers never interleave, so every handler is a
    function from the component state to the component state, or to no
    state at all when one of its updaters throws. *)

From Stdlib Require Import PrimFloat Ascii String.
From stdpp Require Import gmap strings list fin_maps.

Local Open Scope string_scope.
#[local] Set Warnings "-register-all".

(** ** Run-time values

    The payloads come out of [JSON.parse], so at run time a field typed
    [AgentName] or [string] in the source can hold any JSON value; property
    reads add [undefined]. *)

Inductive value : Type :=
  | VUndefined
  | VNull
  | VBool (b : bool)
  | VNum (f : float)
  | VStr (s : string)
  | VArr (items : list value)
  | VObj (props : list (string * value)).

(** JavaScript's ToBoolean: [undefined], [null], [false], [0], [-0], [NaN]
    and the empty string are falsy, everything else is truthy. *)
Definition truthy (v : value) : bool :=
  match v with
  | VUndefined | VNull => false
  | VBool b => b
  | VNum f => negb (is_zero f || is_nan f)
  | VStr s => negb (String.eqb s "")
  | VArr _ | VObj _ => true
  end.

(** [a || b] *)
Definition or_else (a b : value) : value := if truthy a then a else b.

(** Own property of a parsed object, first binding of the key. *)
Fixpoint assoc (k : string) (props : list (string * value)) : value :=
  match props with
  | [] => VUndefined
  | (k', v) :: rest => if String.eqb k k' then v else assoc k rest
  end.

(** [data?.k] for the keys the handlers read ([agent], [status], [summary],
    [ms], [error]): none of them is a property of a primitive or of an
    array, and on [null] the optional chain yields [undefined]. Once the
    guard has shown [data] to be an object, [data.k] is the same read. *)
Definition get (data : value) (k : string) : value :=
  match data with
  | VObj props => assoc k props
  | _ => VUndefined
  end.

(** [v === "s"] *)
Definition is_str (v : value) (s : string) : bool :=
  match v with
  | VStr s' => String.eqb s' s
  | _ => false
  end.

(** ** String.prototype.trim

    Strings are sequences of code units below 256; the white space and line
    terminators in that range are TAB, LF, VT, FF, CR, SPACE and NBSP. *)

Definition is_ws (a : ascii) : bool :=
  let n := nat_of_ascii a in
  (9 <=? n)%nat && (n <=? 13)%nat || (n =? 32)%nat || (n =? 160)%nat.

Fixpoint trim_start (s : string) : string :=
  match s with
  | EmptyString => EmptyString
  | String a r => if is_ws a then trim_start r else s
  end.

Fixpoint trim_end (s : string) : string :=
  match s with
  | EmptyString => EmptyString
  | String a r =>
      match trim_end r with
      | EmptyString => if is_ws a then EmptyString else String a EmptyString
      | r' => String a r'
      end
  end.

Definition trim (s : string) : string := trim_end (trim_start s).

Fixpoint all_ws (s : string) : bool :=
  match s with
  | EmptyString => true
  | String a r => is_ws a && all_ws r
  end.

(** ** Data model *)

(** [AgentEvent]; an absent optional field reads [undefined]. *)
Record AgentEvent : Type := mkAgentEvent {
  agent : value;
  status : value;
  summary : value;
  ms : value;
  details : value;
}.

(** [{ ...e, status: s }] *)
Definition with_status (e : AgentEvent) (s : value) : AgentEvent :=
  {| agent := agent e; status := s; summary := summary e; ms := ms e;
     details := details e |}.

(** [{ ...undefined }] *)
Definition emptyEvent : AgentEvent :=
  mkAgentEvent VUndefined VUndefined VUndefined VUndefined VUndefined.

(** [{ agent: name, status: "idle" }] *)
Definition idleEvent (name : string) : AgentEvent :=
  mkAgentEvent (VStr name) (VStr "idle") VUndefined VUndefined VUndefined.

(** [AGENTS.map(a => a.key)] *)
Definition AGENTS : list string :=
  ["relevance"; "retrieval"; "research"; "verify"].

(** The object literal of [useState] and of [resetRun]. *)
Definition idleEvents : gmap string AgentEvent :=
  <["relevance" := idleEvent "relevance"]>
  (<["retrieval" := idleEvent "retrieval"]>
  (<["research" := idleEvent "research"]>
  (<["verify" := idleEvent "verify"]> ∅))).

(** What [new EventSource(url)] was given, and whether [close()] has been
    called on it. A source that has not been closed counts as open, also
    while the browser is reconnecting it. *)
Record EventSource : Type := mkEventSource {
  es_base : string;
  es_params : list (string * string);
  es_closed : bool;
}.

Definition es_close (e : EventSource) : EventSource :=
  {| es_base := es_base e; es_params := es_params e; es_closed := true |}.

(** The state cells of [Page], the [eventSourceRef] and the [EventSource]
    objects created so far, a source being named by its position. *)
Record State : Type := mkState {
  question : string;
  topKSources : float;
  docs : list string;
  docId : string;
  events : gmap string AgentEvent;
  finalResult : value;
  errorMsg : value;
  isStreaming : bool;
  eventSourceRef : option nat;
  sources : list EventSource;
}.

Definition setQuestion (q : string) (st : State) : State :=
  mkState q (topKSources st) (docs st) (docId st) (events st)
    (finalResult st) (errorMsg st) (isStreaming st) (eventSourceRef st)
    (sources st).

Definition setTopKSources (k : float) (st : State) : State :=
  mkState (question st) k (docs st) (docId st) (events st)
    (finalResult st) (errorMsg st) (isStreaming st) (eventSourceRef st)
    (sources st).

Definition setDocs (l : list string) (st : State) : State :=
  mkState (question st) (topKSources st) l (docId st) (events st)
    (finalResult st) (errorMsg st) (isStreaming st) (eventSourceRef st)
    (sources st).

Definition setDocId (d : string) (st : State) : State :=
  mkState (question st) (topKSources st) (docs st) d (events st)
    (finalResult st) (errorMsg st) (isStreaming st) (eventSourceRef st)
    (sources st).

(** [setEvents(prev => f(prev))]; a plain [setEvents(x)] is the constant
    updater. *)
Definition setEvents (f : gmap string AgentEvent → gmap string AgentEvent)
    (st : State) : State :=
  mkState (question st) (topKSources st) (docs st) (docId st)
    (f (events st)) (finalResult st) (errorMsg st) (isStreaming st)
    (eventSourceRef st) (sources st).

Definition setFinalResult (v : value) (st : State) : State :=
  mkState (question st) (topKSources st) (docs st) (docId st) (events st)
    v (errorMsg st) (isStreaming st) (eventSourceRef st) (sources st).

Definition setErrorMsg (v : value) (st : State) : State :=
  mkState (question st) (topKSources st) (docs st) (docId st) (events st)
    (finalResult st) v (isStreaming st) (eventSourceRef st) (sources st).

Definition setIsStreaming (b : bool) (st : State) : State :=
  mkState (question st) (topKSources st) (docs st) (docId st) (events st)
    (finalResult st) (errorMsg st) b (eventSourceRef st) (sources st).

(** [eventSourceRef.current = r] *)
Definition setRef (r : option nat) (st : State) : State :=
  mkState (question st) (topKSources st) (docs st) (docId st) (events st)
    (finalResult st) (errorMsg st) (isStreaming st) r (sources st).

Definition setSources (l : list EventSource) (st : State) : State :=
  mkState (question st) (topKSources st) (docs st) (docId st) (events st)
    (finalResult st) (errorMsg st) (isStreaming st) (eventSourceRef st) l.

(** The state of the first render. *)
Definition initialState : State :=
  mkState "" 5%float [] "" idleEvents VNull (VStr "") false None [].

(** ** Handlers that need no builtin *)

Definition resetRun (st : State) : State :=
  setEvents (λ _, idleEvents) (setFinalResult VNull (setErrorMsg (VStr "") st)).

Definition stopStream (st : State) : State :=
  let st1 :=
    match eventSourceRef st with
    | Some i => setRef None (setSources (alter es_close i (sources st)) st)
    | None => st
    end in
  setIsStreaming false st1.

(** The four values of [overallStatus]. *)
Inductive Phase : Type := RUNNING | ERROR | DONE | IDLE.

Definition overallStatus (st : State) : Phase :=
  if isStreaming st then RUNNING
  else if truthy (errorMsg st) then ERROR
  else if truthy (finalResult st) then DONE
  else IDLE.

(** ** Builtins, listeners and [startStream] *)

(** What the handlers take from the platform. *)
Class Builtins : Type := {
  (** [JSON.parse]; [None] when it throws. *)
  JSON_parse : string → option value;
  (** [String(n)] on a number, also the property key a number turns into. *)
  Number_toString : float → string;
  (** [process.env.NEXT_PUBLIC_API_BASE || "http://localhost:8000"] *)
  API_BASE : string;
}.

Section Controller.

Context {B : Builtins}.

Definition safeJsonParse (s : string) : value :=
  match JSON_parse s with
  | Some v => v
  | None => VNull
  end.

(** The object has a property of its own under the key. *)
Definition hasOwn (k : string) (props : list (string * value)) : bool :=
  existsb (λ p, String.eqb k p.1) props.

(** JavaScript's ToString on the values above; [None] is a TypeError.
    An array joins its items with commas, [null] and [undefined] items
    counting as empty. A parsed object inherits [Object.prototype.toString],
    which gives ["[object Object]"]; a [toString] property of its own
    shadows it, is not callable (no JSON value is), and the conversion
    throws, since [valueOf] does not give a primitive either. *)
Fixpoint ToString (v : value) : option string :=
  match v with
  | VUndefined => Some "undefined"
  | VNull => Some "null"
  | VBool true => Some "true"
  | VBool false => Some "false"
  | VNum f => Some (Number_toString f)
  | VStr s => Some s
  | VArr items =>
      let item x :=
        match x with
        | VUndefined | VNull => Some ""
        | _ => ToString x
        end in
      (fix join (l : list value) : option string :=
         match l with
         | [] => Some ""
         | [x] => item x
         | x :: rest =>
             match item x with
             | Some s =>
                 match join rest with
                 | Some r => Some (s +:+ "," +:+ r)
                 | None => None
                 end
             | None => None
             end
         end) items
  | VObj props =>
      if hasOwn "toString" props then None else Some "[object Object]"
  end.

(** The key of a computed property [[agent]: ...]. *)
Definition ToPropertyKey (v : value) : option string := ToString v.

(** The entry the [agent] listener stores for a payload. *)
Definition eventOf (data : value) : AgentEvent :=
  {| agent := get data "agent";
     status := or_else (get data "status") (VStr "running");
     summary := get data "summary";
     ms := get data "ms";
     details := data |}.

(** The updater of the [agent] listener; the computed key [[agent]] throws
    ([None]) when the agent does not convert to a property key. *)
Definition storeEvent (data : value) (prev : gmap string AgentEvent)
    : option (gmap string AgentEvent) :=
  match ToPropertyKey (get data "agent") with
  | Some key => Some (<[key := eventOf data]> prev)
  | None => None
  end.

(** [es.addEventListener("agent", ...)]; [None] when its updater throws. *)
Definition onAgent (raw : string) (st : State) : option State :=
  let data := safeJsonParse raw in
  if negb (truthy (get data "agent")) then Some st
  else
    match storeEvent data (events st) with
    | Some ev => Some (setEvents (λ _, ev) st)
    | None => None
    end.

(** [es.addEventListener("final", ...)] *)
Definition onFinal (raw : string) (st : State) : State :=
  let data := safeJsonParse raw in
  let st1 :=
    if truthy (get data "error") then setErrorMsg (get data "error") st
    else if truthy data then setFinalResult data st
    else st in
  stopStream st1.

Definition streamErrorMsg : string :=
  "Stream error (backend unreachable or crashed). Check FastAPI logs.".

(** The updater of [es.onerror]; [prev.verify.status] throws a TypeError
    ([None]) on an object without a [verify] entry. *)
Definition markVerify (prev : gmap string AgentEvent)
    : option (gmap string AgentEvent) :=
  match prev !! "verify" with
  | Some v =>
      Some (<["verify" :=
               with_status v
                 (if is_str (status v) "done" then VStr "done"
                  else VStr "error")]> prev)
  | None => None
  end.

(** [es.onerror] *)
Definition onError (st : State) : option State :=
  let st1 := setErrorMsg (VStr streamErrorMsg) (stopStream st) in
  match markVerify (events st1) with
  | Some ev => Some (setEvents (λ _, ev) st1)
  | None => None
  end.

(** The updater that marks the first step as running. *)
Definition markRelevance (prev : gmap string AgentEvent)
    : gmap string AgentEvent :=
  <["relevance" :=
      with_status (default emptyEvent (prev !! "relevance"))
        (VStr "running")]> prev.

Definition startStream (st : State) : State :=
  let st1 := resetRun st in
  let q := trim (question st1) in
  if String.eqb q "" then setErrorMsg (VStr "Please enter a question.") st1
  else if String.eqb (docId st1) "" then
    setErrorMsg (VStr "Please select a document.") st1
  else
    let st2 := setIsStreaming true (setEvents markRelevance st1) in
    let params :=
      [("question", q); ("doc_id", docId st2);
       ("top_k_sources", Number_toString (topKSources st2))] in
    let es := mkEventSource (API_BASE +:+ "/api/ask/stream") params false in
    setRef (Some (length (sources st2))) (setSources (sources st2 ++ [es]) st2).

(** The [useEffect] that loads the document list. Its closure holds the
    [docId] of the first render, the empty string, so [!docId] is true
    whenever the request resolves. *)
Definition onDocsLoaded (names : list string) (st : State) : State :=
  let st1 := setDocs names st in
  match names with
  | d :: _ => setDocId d st1
  | [] => st1
  end.

Definition onDocsFailed (message : value) (st : State) : State :=
  setErrorMsg (or_else message (VStr "Failed to load built-in documents.")) st.

(** ** The component as a transition system *)

Inductive Action : Type :=
  | ClickRun
  | ClickStop
  | ClickReset
  | ChangeQuestion (s : string)
  | ChangeDoc (d : string)
  | ChangeTopK (k : float)
  | DocsLoaded (names : list string)
  | DocsFailed (message : value)
  | EsAgent (i : nat) (raw : string)
  | EsFinal (i : nat) (raw : string)
  | EsError (i : nat).

(** The handler an action runs; [None] is an uncaught exception. The
    listeners of every source are the same closures: they go through
    [eventSourceRef] and the state setters, never through their own
    source. *)
Definition handle (a : Action) (st : State) : option State :=
  match a with
  | ClickRun => Some (startStream st)
  | ClickStop => Some (stopStream st)
  | ClickReset => Some (resetRun st)
  | ChangeQuestion s => Some (setQuestion s st)
  | ChangeDoc d => Some (setDocId d st)
  | ChangeTopK k => Some (setTopKSources k st)
  | DocsLoaded l => Some (onDocsLoaded l st)
  | DocsFailed m => Some (onDocsFailed m st)
  | EsAgent _ raw => onAgent raw st
  | EsFinal _ raw => Some (onFinal raw st)
  | EsError _ => onError st
  end.

(** [start], [cancel], [reset] and the listeners called in sequence. *)
Fixpoint handleAll (acts : list Action) (st : State) : option State :=
  match acts with
  | [] => Some st
  | a :: rest =>
      match handle a st with
      | Some st' => handleAll rest st'
      | None => None
      end
  end.

Definition is_open (st : State) (i : nat) : bool :=
  match sources st !! i with
  | Some e => negb (es_closed e)
  | None => false
  end.

(** What the page lets happen: the Run button is
    [disabled={isStreaming || !question.trim() || !docId}], the Stop
    button is rendered only while [isStreaming], and a closed
    [EventSource] dispatches nothing. *)
Definition enabled (st : State) (a : Action) : bool :=
  match a with
  | ClickRun =>
      negb (isStreaming st || String.eqb (trim (question st)) ""
            || String.eqb (docId st) "")
  | ClickStop => isStreaming st
  | EsAgent i _ | EsFinal i _ | EsError i => is_open st i
  | _ => true
  end.

(** A session with the page: an action that is not enabled does not
    happen. *)
Fixpoint session (acts : list Action) (st : State) : option State :=
  match acts with
  | [] => Some st
  | a :: rest =>
      if enabled st a then
        match handle a st with
        | Some st' => session rest st'
        | None => None
        end
      else session rest st
  end.

(** The sources on which [close()] has not been called. *)
Definition openSources (st : State) : list EventSource :=
  filter (λ e, es_closed e = false) (sources st).

(** What can happen in a run between [startStream] and its terminal event:
    stage events, clicks on Reset, and edits of the three inputs. (The
    document list has arrived by then, or no document could be selected.) *)
Inductive RunEvent : Type :=
  | AgentFrame (raw : string)
  | ResetClicked
  | QuestionEdited (s : string)
  | DocSelected (d : string)
  | TopKEdited (k : float).

Definition runEvent (e : RunEvent) (st : State) : option State :=
  match e with
  | AgentFrame raw => onAgent raw st
  | ResetClicked => Some (resetRun st)
  | QuestionEdited s => Some (setQuestion s st)
  | DocSelected d => Some (setDocId d st)
  | TopKEdited k => Some (setTopKSources k st)
  end.

Fixpoint runEvents (evs : list RunEvent) (st : State) : option State :=
  match evs with
  | [] => Some st
  | e :: rest =>
      match runEvent e st with
      | Some st' => runEvents rest st'
      | None => None
      end
  end.

(** The stage events in the order received. *)
Fixpoint applyFrames (raws : list string) (st : State) : option State :=
  match raws with
  | [] => Some st
  | raw :: rest =>
      match onAgent raw st with
      | Some st' => applyFrames rest st'
      | None => None
      end
  end.

(** What the [agent] listener does with a frame: it returns at its guard,
    stores the event under a key, or its updater throws. *)
Inductive Delivery : Type :=
  | Dropped
  | Stored (key : string)
  | Throws.

Definition stageKey (raw : string) : Delivery :=
  let data := safeJsonParse raw in
  if truthy (get data "agent") then
    match ToPropertyKey (get data "agent") with
    | Some key => Stored key
    | None => Throws
    end
  else Dropped.

(** The computed key of the frame, if it has one, can be formed. *)
Definition converts (raw : string) : bool :=
  match stageKey raw with
  | Throws => false
  | _ => true
  end.

#[global] Instance Delivery_eq_dec : EqDecision Delivery.
Proof. solve_decision. Defined.

(** The frames received for one stage, in the order received. *)
Definition framesFor (k : string) (raws : list string) : list string :=
  filter (λ raw, stageKey raw = Stored k) raws.

(** The agent is one of the four stage names. *)
Definition isStageName (v : value) : bool :=
  match v with
  | VStr s => existsb (String.eqb s) AGENTS
  | _ => false
  end.

(** [startStream] gets past its two validation returns. *)
Definition startable (st : State) : bool :=
  negb (String.eqb (trim (question st)) "")
  && negb (String.eqb (docId st) "").

(** The message of the validation return [startStream] takes. *)
Definition validationMessage (st : State) : string :=
  if String.eqb (trim (question st)) "" then "Please enter a question."
  else "Please select a document.".

(** The source [startStream] creates. *)
Definition newSource (st : State) : EventSource :=
  mkEventSource (API_BASE +:+ "/api/ask/stream")
    [("question", trim (question st)); ("doc_id", docId st);
     ("top_k_sources", Number_toString (topKSources st))] false.

(** What holds of the page between sessions' steps: an open source is the
    one [eventSourceRef] holds, the reference is set only while
    [isStreaming], and [events] has its [verify] entry. *)
Definition pageInv (st : State) : Prop :=
  (∀ i, is_open st i = true → eventSourceRef st = Some i)
  ∧ (is_Some (eventSourceRef st) → isStreaming st = true)
  ∧ is_Some (events st !! "verify").

(** A run under way on source [i]: nothing terminal has happened yet. *)
Definition midRun (i : nat) (st : State) : Prop :=
  isStreaming st = true
  ∧ eventSourceRef st = Some i
  ∧ is_open st i = true
  ∧ errorMsg st = VStr ""
  ∧ finalResult st = VNull
  ∧ is_Some (events st !! "verify").

End Controller.

(** ** Sample builtins and frames

    The theorems below hold for every [JSON.parse], [String] and base URL.
    The examples run the handlers on a few concrete frames; each row of
    [sampleFrames] pairs a JSON text with the value [JSON.parse] returns for
    it, and any other text used below is not JSON. *)

Definition dquote : string := String "034"%char EmptyString.

Definition quoted (s : string) : string := dquote +:+ s +:+ dquote.

(** The JSON text of an object whose fields are all strings. *)
Fixpoint jsonFields (fields : list (string * string)) : string :=
  match fields with
  | [] => ""
  | [(k, v)] => quoted k +:+ ":" +:+ quoted v
  | (k, v) :: rest => quoted k +:+ ":" +:+ quoted v +:+ "," +:+ jsonFields rest
  end.

Definition jsonText (fields : list (string * string)) : string :=
  "{" +:+ jsonFields fields +:+ "}".

Definition jsonValue (fields : list (string * string)) : value :=
  VObj (map (λ kv, (kv.1, VStr kv.2)) fields).

Definition relevanceDone : list (string * string) :=
  [("agent", "relevance"); ("status", "done");
   ("summary", "Found relevant content")].

Definition verifyDone : list (string * string) :=
  [("agent", "verify"); ("status", "done")].

Definition retrievalBare : list (string * string) := [("agent", "retrieval")].

Definition unknownStage : list (string * string) :=
  [("agent", "rerank"); ("status", "done")].

Definition noAgent : list (string * string) := [("status", "done")].

Definition finalAnswer : list (string * string) :=
  [("question", "What is the refund policy?");
   ("draft_answer", "Refunds within 30 days.")].

Definition finalError : list (string * string) :=
  [("error", "LLM quota exceeded")].

(** A final payload whose error text is empty. *)
Definition finalEmptyError : list (string * string) :=
  [("question", "What is the refund policy?"); ("error", "")].

(** A stage event whose agent is the empty string. *)
Definition emptyAgent : list (string * string) := [("agent", "")].

Definition sampleFrames : list (string * value) :=
  map (λ f, (jsonText f, jsonValue f))
    [relevanceDone; verifyDone; retrievalBare; unknownStage; noAgent;
     finalAnswer; finalError; finalEmptyError; emptyAgent].

Fixpoint lookupFrame (s : string) (rows : list (string * value))
    : option value :=
  match rows with
  | [] => None
  | (t, v) :: rest => if String.eqb s t then Some v else lookupFrame s rest
  end.

Definition sampleParse (s : string) : option value := lookupFrame s sampleFrames.

(** [String(5)], the only number the examples convert. *)
Definition sampleNumberToString (f : float) : string :=
  if (f =? 5)%float then "5" else "NaN".

Definition sampleBuiltins : Builtins :=
  {| JSON_parse := sampleParse;
     Number_toString := sampleNumberToString;
     API_BASE := "http://localhost:8000" |}.

(** The page after the document list arrived and a question was typed. *)
Definition readyActions : list Action :=
  [DocsLoaded ["policy.pdf"]; ChangeQuestion "What is the refund policy?"].

Definition readyState : State :=
  setQuestion "What is the refund policy?"
    (onDocsLoaded ["policy.pdf"] initialState).

(** [readyState] after a click on Run. *)
Definition runningState : State := startStream (B := sampleBuiltins) readyState.

(** A whole run: start, one stage event, the final answer. *)
Definition answeredActions : list Action :=
  (readyActions
     ++ [ClickRun; EsAgent 0 (jsonText relevanceDone);
         EsFinal 0 (jsonText finalAnswer)])%list.

(** ** The status badges of the trace *)

(** [badgeClass]: a [switch] on the status, its cases compared with [===]. *)
Definition badgeClass (status : value) : string :=
  if is_str status "running" then "bg-blue-50 text-blue-700 ring-blue-200"
  else if is_str status "done" then
    "bg-green-50 text-green-700 ring-green-200"
  else if is_str status "error" then "bg-red-50 text-red-700 ring-red-200"
  else "bg-gray-50 text-gray-700 ring-gray-200".

Section Rendering.

(** [String.prototype.toUpperCase] *)
Variable toUpperCase : string → string.

(** [Badge]: the status-dependent part of the class name and the label.
    [status.toUpperCase()] throws a TypeError ([None]) on anything but a
    string. *)
Definition Badge (status : value) : option (string * string) :=
  match status with
  | VStr s => Some (badgeClass status, toUpperCase s)
  | _ => None
  end.

(** The [Badge] calls of [AGENTS.map(a => { const ev = events[a.key]; ... })]
    in order; [None] when one of them throws, or [ev.status] does on a
    missing entry. The list item renders more than its badge (the summary,
    the time, the payload): a [Some] here says that no badge throws, not
    that the item renders. *)
Definition traceBadges (st : State) : option (list (string * string)) :=
  mapM (λ key, ev ← events st !! key; Badge (status ev)) AGENTS.

End Rendering.

(** ** Predicates on states and actions *)

Section Reachability.

Context {B : Builtins}.

(** Every stage of [AGENTS] has an entry. *)
Definition hasStages (st : State) : Prop :=
  Forall (λ key, is_Some (events st !! key)) AGENTS.

(** [isStreaming] is set exactly when [eventSourceRef] holds a source, and
    that source is open. *)
Definition coherent (st : State) : Prop :=
  match eventSourceRef st with
  | Some i => isStreaming st = true ∧ is_open st i = true
  | None => isStreaming st = false
  end.

(** A source as [startStream] requests it: the stream endpoint, with a
    trimmed non-empty question and a non-empty document id. *)
Definition wellFormedSource (e : EventSource) : bool :=
  String.eqb (es_base e) (API_BASE +:+ "/api/ask/stream")
  && match es_params e with
     | [(k1, q); (k2, d); (k3, _)] =>
         String.eqb k1 "question" && String.eqb k2 "doc_id"
         && String.eqb k3 "top_k_sources"
         && negb (String.eqb q "") && String.eqb (trim q) q
         && negb (String.eqb d "")
     | _ => false
     end.

Definition isStreamEvent (a : Action) : bool :=
  match a with
  | EsAgent _ _ | EsFinal _ _ | EsError _ => true
  | _ => false
  end.

(** The status the [agent] listener stores for a frame is a string: the
    frame's own, or [running] when it has none. *)
Definition storesTextStatus (raw : string) : bool :=
  match status (eventOf (safeJsonParse raw)) with
  | VStr _ => true
  | _ => false
  end.

(** The action is not a stage event whose computed key throws. *)
Definition keyConverts (a : Action) : bool :=
  match a with
  | EsAgent _ raw => converts raw
  | _ => true
  end.

(** The action leaves the document id empty if it was. *)
Definition selectsNoDocument (a : Action) : bool :=
  match a with
  | ChangeDoc d => String.eqb d ""
  | DocsLoaded (d :: _) => String.eqb d ""
  | _ => true
  end.

End Reachability.

(** ** More sample builtins *)

(** [toUpperCase] on strings of ASCII characters. *)
Definition upperChar (a : ascii) : ascii :=
  let n := nat_of_ascii a in
  if (97 <=? n)%nat && (n <=? 122)%nat then ascii_of_nat (n - 32) else a.

Fixpoint sampleToUpperCase (s : string) : string :=
  match s with
  | EmptyString => EmptyString
  | String a r => String (upperChar a) (sampleToUpperCase r)
  end.

(** A [verify] event whose status is the number 5. *)
Definition numericStatusText : string :=
  "{" +:+ quoted "agent" +:+ ":" +:+ quoted "verify" +:+ ","
  +:+ quoted "status" +:+ ":5}".

Definition numericStatusValue : value :=
  VObj [("agent", VStr "verify"); ("status", VNum 5)].

(** A stage event whose agent is the array [["verify"]]. *)
Definition arrayAgentText : string :=
  "{" +:+ quoted "agent" +:+ ":[" +:+ quoted "verify" +:+ "],"
  +:+ quoted "status" +:+ ":" +:+ quoted "error" +:+ "}".

Definition arrayAgentValue : value :=
  VObj [("agent", VArr [VStr "verify"]); ("status", VStr "error")].

(** A stage event whose agent is an object with a [toString] property. *)
Definition ownToStringText : string :=
  "{" +:+ quoted "agent" +:+ ":{" +:+ quoted "toString" +:+ ":1},"
  +:+ quoted "status" +:+ ":" +:+ quoted "done" +:+ "}".

Definition ownToStringValue : value :=
  VObj [("agent", VObj [("toString", VNum 1)]); ("status", VStr "done")].

Definition richFrames : list (string * value) :=
  [(numericStatusText, numericStatusValue);
   (arrayAgentText, arrayAgentValue);
   (ownToStringText, ownToStringValue)].

(** [sampleBuiltins] with those frames added to what its parser knows. *)
Definition richBuiltins : Builtins :=
  {| JSON_parse :=
       λ s, match lookupFrame s richFrames with
            | Some v => Some v
            | None => sampleParse s
            end;
     Number_toString := sampleNumberToString;
     API_BASE := "http://localhost:8000" |}.

(** Start, then stop. *)
Definition stoppedActions : list Action :=
  (readyActions ++ [ClickRun; ClickStop])%list.

(** [runningState] after a transport error. *)
Definition failedState : State :=
  default runningState (onError runningState).

(** [runningState] after the [relevance] event of the first scenario. *)
Definition afterRelevance : State :=
  default runningState
    (onAgent (B := sampleBuiltins) (jsonText relevanceDone) runningState).

(** * Properties *)

Section Facts.

Context {B : Builtins}.

Implicit Types (st : State) (raw : string) (k : string).

(** *** Trimming *)

Lemma trim_start_all_ws s : all_ws s = true → trim_start s = "".
Proof.
  induction s as [|a r IH]; simpl; [done|].
  destruct (is_ws a); simpl; [exact IH | discriminate].
Qed.

Lemma trim_start_not_all_ws s :
  all_ws s = false → ∃ a r, trim_start s = String a r ∧ is_ws a = false.
Proof.
  induction s as [|a r IH]; simpl; [discriminate|].
  destruct (is_ws a) eqn:Ha; simpl; [exact IH | eauto].
Qed.

Lemma trim_end_head a r : is_ws a = false → trim_end (String a r) ≠ "".
Proof. simpl. intros ->. by destruct (trim_end r). Qed.

(** The question is empty after trimming exactly when it consists of white
    space only. *)
Lemma trim_empty_iff s : trim s = "" ↔ all_ws s = true.
Proof.
  unfold trim. split.
  - intros Ht. destruct (all_ws s) eqn:Hs; [done|].
    destruct (trim_start_not_all_ws s Hs) as (a & r & Heq & Ha).
    rewrite Heq in Ht. by apply trim_end_head in Ht.
  - intros Hs. by rewrite trim_start_all_ws.
Qed.

(** *** The [agent] listener *)

Lemma safeJsonParse_unparseable raw :
  JSON_parse raw = None → safeJsonParse raw = VNull.
Proof. unfold safeJsonParse. by intros ->. Qed.

Lemma onAgent_dropped raw st : stageKey raw = Dropped → onAgent raw st = Some st.
Proof.
  unfold stageKey, onAgent.
  destruct (truthy (get (safeJsonParse raw) "agent")); [|done].
  by destruct (ToPropertyKey _).
Qed.

Lemma onAgent_stored raw st k :
  stageKey raw = Stored k →
  onAgent raw st =
    Some (setEvents (λ prev, <[k := eventOf (safeJsonParse raw)]> prev) st).
Proof.
  unfold stageKey, onAgent, storeEvent.
  destruct (truthy (get (safeJsonParse raw) "agent")); simpl; [|done].
  destruct (ToPropertyKey _); [|done]. by intros [= <-].
Qed.

Lemma onAgent_throws raw st : stageKey raw = Throws → onAgent raw st = None.
Proof.
  unfold stageKey, onAgent, storeEvent.
  destruct (truthy (get (safeJsonParse raw) "agent")); simpl; [|done].
  by destruct (ToPropertyKey _).
Qed.

Lemma onAgent_converts raw st :
  converts raw = true → is_Some (onAgent raw st).
Proof.
  unfold converts. destruct (stageKey raw) as [|k|] eqn:Hk; [| |done].
  - rewrite (onAgent_dropped _ _ Hk). eauto.
  - rewrite (onAgent_stored _ _ _ Hk). eauto.
Qed.

Lemma onAgent_returns raw st st' :
  onAgent raw st = Some st' → converts raw = true.
Proof.
  unfold converts. destruct (stageKey raw) as [|k|] eqn:Hk; [done..|].
  by rewrite (onAgent_throws _ _ Hk).
Qed.

Lemma onAgent_lookup raw st st' k :
  onAgent raw st = Some st' →
  events st' !! k =
    if decide (stageKey raw = Stored k) then Some (eventOf (safeJsonParse raw))
    else events st !! k.
Proof.
  destruct (stageKey raw) as [|k'|] eqn:Hk.
  - rewrite (onAgent_dropped _ _ Hk). intros [= <-]. by case_decide.
  - rewrite (onAgent_stored _ _ _ Hk). intros [= <-].
    unfold setEvents. cbn [events]. rewrite lookup_insert.
    repeat case_decide; congruence.
  - by rewrite (onAgent_throws _ _ Hk).
Qed.

(** The listener writes [events] and nothing else. *)
Lemma onAgent_frame raw st st' :
  onAgent raw st = Some st' → st' = setEvents (λ _, events st') st.
Proof.
  destruct (stageKey raw) as [|k'|] eqn:Hk.
  - rewrite (onAgent_dropped _ _ Hk). intros [= <-]. by destruct st.
  - rewrite (onAgent_stored _ _ _ Hk). by intros [= <-].
  - by rewrite (onAgent_throws _ _ Hk).
Qed.

Lemma applyFrames_app raws1 raws2 st :
  applyFrames (raws1 ++ raws2)%list st =
    match applyFrames raws1 st with
    | Some st1 => applyFrames raws2 st1
    | None => None
    end.
Proof.
  revert st. induction raws1 as [|raw raws1 IH]; intros st; simpl; [done|].
  by destruct (onAgent raw st).
Qed.

Lemma applyFrames_converts raws st :
  forallb converts raws = true → is_Some (applyFrames raws st).
Proof.
  revert st. induction raws as [|raw raws IH]; intros st; simpl; [eauto|].
  intros [Hc Hall]%andb_true_iff.
  destruct (onAgent_converts raw st Hc) as [st1 ->]. by apply IH.
Qed.

Lemma framesFor_snoc k raws raw :
  framesFor k (raws ++ [raw])%list =
    (framesFor k raws
       ++ (if decide (stageKey raw = Stored k) then [raw] else []))%list.
Proof.
  unfold framesFor. by rewrite filter_app.
Qed.

Lemma applyFrames_lookup raws st st' k :
  applyFrames raws st = Some st' →
  events st' !! k =
    match last (framesFor k raws) with
    | Some raw => Some (eventOf (safeJsonParse raw))
    | None => events st !! k
    end.
Proof.
  revert st'. induction raws as [|raw raws IH] using rev_ind; intros st'.
  - by intros [= <-].
  - rewrite applyFrames_app. simpl.
    destruct (applyFrames raws st) as [st1|] eqn:H1; [|done].
    destruct (onAgent raw st1) as [st2|] eqn:H2; [|done]. intros [= <-].
    rewrite (onAgent_lookup _ _ _ _ H2), framesFor_snoc, (IH _ eq_refl).
    case_decide.
    + by rewrite last_snoc.
    + by rewrite app_nil_r.
Qed.

(** *** [resetRun], [stopStream] and [startStream] *)

Lemma startStream_valid st :
  startable st = true →
  startStream st =
    mkState (question st) (topKSources st) (docs st) (docId st)
      (markRelevance idleEvents) VNull (VStr "") true
      (Some (length (sources st))) (sources st ++ [newSource st])%list.
Proof.
  unfold startable, startStream, newSource. simpl.
  destruct (String.eqb (trim (question st)) ""); [done|].
  by destruct (String.eqb (docId st) "").
Qed.

Lemma startStream_invalid st :
  startable st = false →
  startStream st = setErrorMsg (VStr (validationMessage st)) (resetRun st).
Proof.
  unfold startable, startStream, validationMessage. simpl.
  destruct (String.eqb (trim (question st)) ""); [done|].
  by destruct (String.eqb (docId st) "").
Qed.

Lemma idleEvents_verify : idleEvents !! "verify" = Some (idleEvent "verify").
Proof. by vm_compute. Qed.

Lemma markRelevance_verify ev : markRelevance ev !! "verify" = ev !! "verify".
Proof. unfold markRelevance. by rewrite lookup_insert_ne. Qed.

Lemma is_open_app_l e i (st st' : State) :
  sources st' = (sources st ++ [e])%list →
  is_open st' i = true → i ≠ length (sources st) → is_open st i = true.
Proof.
  unfold is_open. intros -> Hop Hne.
  destruct (decide (i < length (sources st))%nat) as [Hlt|Hge].
  - by rewrite lookup_app_l in Hop.
  - rewrite lookup_ge_None_2 in Hop; [done|]. rewrite length_app. simpl. lia.
Qed.

Lemma is_open_stopStream st i :
  (∀ j, is_open st j = true → eventSourceRef st = Some j) →
  is_open (stopStream st) i = false.
Proof.
  intros Hinv. unfold stopStream, is_open.
  destruct (eventSourceRef st) as [j|] eqn:Hr; simpl.
  - destruct (decide (i = j)) as [->|Hne].
    + rewrite list_lookup_alter_eq. by destruct (sources st !! j).
    + rewrite list_lookup_alter_ne by congruence.
      destruct (sources st !! i) as [e|] eqn:He; [|done].
      destruct (es_closed e) eqn:Hc; [done|].
      specialize (Hinv i). unfold is_open in Hinv. rewrite He, Hc in Hinv.
      specialize (Hinv eq_refl). congruence.
  - destruct (sources st !! i) as [e|] eqn:He; [|done].
    destruct (es_closed e) eqn:Hc; [done|].
    specialize (Hinv i). unfold is_open in Hinv. rewrite He, Hc in Hinv.
    by specialize (Hinv eq_refl).
Qed.

Lemma stopStream_fields st :
  isStreaming (stopStream st) = false
  ∧ eventSourceRef (stopStream st) = None
  ∧ events (stopStream st) = events st
  ∧ errorMsg (stopStream st) = errorMsg st
  ∧ finalResult (stopStream st) = finalResult st.
Proof. unfold stopStream. by destruct (eventSourceRef st) eqn:Hr. Qed.

(** At most one element of a list is open when every open position is the
    same one. *)
Lemma open_filter_le1 (l : list EventSource) :
  (∀ i j e1 e2, l !! i = Some e1 → l !! j = Some e2 →
     es_closed e1 = false → es_closed e2 = false → i = j) →
  (length (filter (λ e, es_closed e = false) l) ≤ 1)%nat.
Proof.
  induction l as [|a l IH]; intros Huniq; [simpl; lia|].
  rewrite filter_cons. case_decide as Ha.
  - assert (filter (λ e, es_closed e = false) l = []) as ->; [|simpl; lia].
    destruct (filter _ l) as [|e rest] eqn:Hf; [done|].
    assert (e ∈ filter (λ e, es_closed e = false) l) as He
      by (rewrite Hf; apply list_elem_of_here).
    apply list_elem_of_filter in He as [Hc He].
    apply list_elem_of_lookup in He as [j Hj].
    by specialize (Huniq 0%nat (S j) a e eq_refl Hj Ha Hc).
  - apply IH. intros i j e1 e2 Hi Hj H1 H2.
    by specialize (Huniq (S i) (S j) e1 e2 Hi Hj H1 H2) as [= ->].
Qed.

Lemma pageInv_le1 st : pageInv st → (length (openSources st) ≤ 1)%nat.
Proof.
  intros (Hopen & _ & _). apply open_filter_le1.
  intros i j e1 e2 Hi Hj H1 H2.
  pose proof (Hopen i) as Ii. pose proof (Hopen j) as Ij.
  unfold is_open in Ii, Ij. rewrite Hi, H1 in Ii. rewrite Hj, H2 in Ij.
  specialize (Ii eq_refl). specialize (Ij eq_refl). congruence.
Qed.

Lemma onAgent_fields raw st st' :
  onAgent raw st = Some st' →
  sources st' = sources st
  ∧ eventSourceRef st' = eventSourceRef st
  ∧ isStreaming st' = isStreaming st
  ∧ errorMsg st' = errorMsg st
  ∧ finalResult st' = finalResult st.
Proof. intros Ha. by rewrite (onAgent_frame _ _ _ Ha). Qed.

Lemma onAgent_verify raw st st' :
  onAgent raw st = Some st' →
  is_Some (events st !! "verify") → is_Some (events st' !! "verify").
Proof. intros Ha Hv. rewrite (onAgent_lookup _ _ _ _ Ha). by case_decide. Qed.

Lemma is_open_same st st' i :
  sources st' = sources st → is_open st' i = is_open st i.
Proof. unfold is_open. by intros ->. Qed.

(** *** The page invariant *)

Lemma pageInv_initial : pageInv initialState.
Proof.
  split; [|split].
  - intros i Hi. unfold is_open in Hi. simpl in Hi. by destruct i.
  - simpl. by intros [? ?].
  - change (is_Some (idleEvents !! "verify")).
    rewrite idleEvents_verify. eauto.
Qed.

Lemma pageInv_same st st' :
  sources st' = sources st →
  eventSourceRef st' = eventSourceRef st →
  isStreaming st' = isStreaming st →
  is_Some (events st' !! "verify") →
  pageInv st → pageInv st'.
Proof.
  intros Hs Hr Hi Hv (Hopen & Href & _). split; [|split]; [| |done].
  - intros i. rewrite (is_open_same _ _ _ Hs), Hr. apply Hopen.
  - by rewrite Hr, Hi.
Qed.

Lemma pageInv_stopStream st : pageInv st → pageInv (stopStream st).
Proof.
  intros (Hopen & _ & Hv).
  destruct (stopStream_fields st) as (_ & Hr & He & _).
  split; [|split].
  - intros i. by rewrite is_open_stopStream.
  - rewrite Hr. by intros [? ?].
  - by rewrite He.
Qed.

Lemma pageInv_startStream st :
  pageInv st → isStreaming st = false → pageInv (startStream st).
Proof.
  intros Hinv Hidle. destruct (startable st) eqn:Hs.
  - rewrite (startStream_valid _ Hs). destruct Hinv as (Hopen & Href & _).
    split; [|split]; simpl.
    + intros i Hi. destruct (decide (i = length (sources st))) as [->|Hne];
        [done|].
      eapply is_open_app_l in Hi; [|done..].
      apply Hopen in Hi. rewrite Hi in Href.
      rewrite Href in Hidle by eauto. done.
    + done.
    + rewrite markRelevance_verify, idleEvents_verify. eauto.
  - rewrite (startStream_invalid _ Hs).
    apply (pageInv_same st); [done..| |done]. simpl.
    rewrite idleEvents_verify. eauto.
Qed.

Lemma markVerify_some ev v :
  ev !! "verify" = Some v →
  markVerify ev =
    Some (<["verify" :=
             with_status v
               (if is_str (status v) "done" then VStr "done"
                else VStr "error")]> ev).
Proof. unfold markVerify. by intros ->. Qed.

Lemma onError_some st v :
  events st !! "verify" = Some v →
  onError st =
    Some (setEvents
            (λ prev,
               <["verify" :=
                   with_status v
                     (if is_str (status v) "done" then VStr "done"
                      else VStr "error")]> prev)
            (setErrorMsg (VStr streamErrorMsg) (stopStream st))).
Proof.
  intros Hv. unfold onError.
  destruct (stopStream_fields st) as (_ & _ & He & _).
  assert (events (setErrorMsg (VStr streamErrorMsg) (stopStream st))
          = events st) as Hev by done.
  by rewrite Hev, (markVerify_some _ _ Hv), <- He.
Qed.

Lemma pageInv_handle a st st' :
  pageInv st → enabled st a = true → handle a st = Some st' → pageInv st'.
Proof.
  intros Hinv Hen Ha. pose proof Hinv as (_ & _ & Hv).
  destruct a as [| | |q|d|n|l|m|i raw|i raw|i]; simpl in Ha, Hen;
    try (injection Ha as <-).
  - apply pageInv_startStream; [done|]. by destruct (isStreaming st).
  - by apply pageInv_stopStream.
  - apply (pageInv_same st); [done..| |done].
    change (is_Some (idleEvents !! "verify")).
    rewrite idleEvents_verify. eauto.
  - by apply (pageInv_same st).
  - by apply (pageInv_same st).
  - by apply (pageInv_same st).
  - unfold onDocsLoaded. apply (pageInv_same st); [..|done]; by destruct l.
  - by apply (pageInv_same st).
  - destruct (onAgent_fields _ _ _ Ha) as (? & ? & ? & _).
    apply (pageInv_same st); [done..| |done]. by eapply onAgent_verify.
  - unfold onFinal. apply pageInv_stopStream.
    apply (pageInv_same st); [..|done];
      by repeat match goal with |- context [if ?b then _ else _] =>
                  destruct b end.
  - destruct Hv as [v Hv]. rewrite (onError_some _ _ Hv) in Ha.
    injection Ha as <-.
    apply (pageInv_same (stopStream st));
      [done..| |apply (pageInv_stopStream _ Hinv)].
    unfold setEvents. cbn [events]. rewrite lookup_insert_eq. eauto.
Qed.

Lemma pageInv_session acts st st' :
  pageInv st → session acts st = Some st' → pageInv st'.
Proof.
  revert st. induction acts as [|a acts IH]; intros st Hinv; simpl.
  - by intros [= <-].
  - destruct (enabled st a) eqn:Hen; [|by apply IH].
    destruct (handle a st) as [st1|] eqn:Ha; [|done].
    apply IH. by apply (pageInv_handle a st).
Qed.

(** *** Runs *)

Lemma midRun_startStream st :
  startable st = true → midRun (length (sources st)) (startStream st).
Proof.
  intros Hs. rewrite (startStream_valid _ Hs).
  repeat split; simpl; try done.
  unfold is_open. simpl. by rewrite list_lookup_middle.
Qed.

Lemma midRun_runEvent i e st st' :
  midRun i st → runEvent e st = Some st' → midRun i st'.
Proof.
  intros (Hi & Hr & Ho & He & Hf & Hv) Hrun.
  destruct e as [raw| |q|d|n]; simpl in Hrun;
    [|injection Hrun as <-; by unfold midRun; split_and!..].
  destruct (onAgent_fields _ _ _ Hrun) as (Hs' & Hr' & Hi' & He' & Hf').
  unfold midRun. rewrite Hr', Hi', He', Hf', (is_open_same _ _ _ Hs').
  split_and!; try done. by eapply onAgent_verify.
Qed.

Lemma midRun_runEvents i evs st st' :
  midRun i st → runEvents evs st = Some st' → midRun i st'.
Proof.
  revert st. induction evs as [|e evs IH]; intros st Hm; simpl.
  - by intros [= <-].
  - destruct (runEvent e st) as [st1|] eqn:He; [|done].
    apply IH. by apply (midRun_runEvent i e st).
Qed.

Lemma pageInv_idle st :
  pageInv st → isStreaming st = false → openSources st = [].
Proof.
  intros (Hopen & Href & _) Hidle. unfold openSources.
  destruct (filter _ (sources st)) as [|e rest] eqn:Hf; [done|].
  assert (e ∈ filter (λ e, es_closed e = false) (sources st)) as He
    by (rewrite Hf; apply list_elem_of_here).
  apply list_elem_of_filter in He as [Hc He].
  apply list_elem_of_lookup in He as [i Hi].
  specialize (Hopen i). unfold is_open in Hopen. rewrite Hi, Hc in Hopen.
  specialize (Hopen eq_refl). rewrite Hopen in Href.
  rewrite Href in Hidle by eauto. done.
Qed.

(** A reset amounts to a stop followed by a reset exactly when there is
    nothing to stop. *)
Lemma resetRun_stopStream_iff st :
  resetRun st = resetRun (stopStream st)
  ↔ isStreaming st = false ∧ eventSourceRef st = None.
Proof.
  split.
  - intros Heq. split.
    + by apply (f_equal isStreaming) in Heq.
    + apply (f_equal eventSourceRef) in Heq.
      destruct (stopStream_fields st) as (_ & Hr & _).
      etrans; [exact Heq|]. exact Hr.
  - intros [Hi Hr]. unfold stopStream. rewrite Hr.
    destruct st; simpl in *. by subst.
Qed.

Lemma is_open_stopStream_ref st i :
  eventSourceRef st = Some i → is_open (stopStream st) i = false.
Proof.
  intros Hr. unfold stopStream, is_open. rewrite Hr. simpl.
  rewrite list_lookup_alter_eq. by destruct (sources st !! i).
Qed.

Lemma stageKey_name raw a :
  get (safeJsonParse raw) "agent" = VStr a → a ≠ "" → stageKey raw = Stored a.
Proof.
  intros Ha Hne. unfold stageKey. rewrite Ha. simpl.
  by destruct (String.eqb_spec a "").
Qed.

Lemma stageKey_falsy raw :
  truthy (get (safeJsonParse raw) "agent") = false → stageKey raw = Dropped.
Proof. unfold stageKey. by intros ->. Qed.

Lemma isStageName_elem s : isStageName (VStr s) = true ↔ s ∈ AGENTS.
Proof.
  unfold isStageName. rewrite existsb_exists. split.
  - intros (x & Hx & ->%String.eqb_eq). by apply list_elem_of_In.
  - intros Hs. exists s. split; [by apply list_elem_of_In|].
    apply String.eqb_refl.
Qed.

(** ** The claims *)

(** C1 (as amended). At every point of a session with the page, where the
    Run button is disabled while a run is streaming, at most one stream is
    open: none while [isStreaming] is false, which is the only time
    [startStream] can be invoked, and at most one while it is true.
    [startStream] itself closes nothing. *)
Theorem session_at_most_one_open (acts : list Action) st :
  session acts initialState = Some st →
  (length (openSources st) ≤ (if isStreaming st then 1 else 0))%nat.
Proof.
  intros Hrun.
  pose proof (pageInv_session acts initialState st pageInv_initial Hrun)
    as Hinv.
  destruct (isStreaming st) eqn:Hi.
  - by apply pageInv_le1.
  - by rewrite (pageInv_idle _ Hinv Hi).
Qed.

(** C2 (as amended). A call to [startStream] whose question is empty or
    white space only, or whose document id is empty, opens no stream and
    leaves the sources, the reference and [isStreaming] as they were; it
    does reset the run first (every stage back to idle, result cleared) and
    then stores the validation message in [errorMsg], so the phase is ERROR
    unless a run is streaming. *)
Theorem startStream_rejected st :
  all_ws (question st) = true ∨ docId st = "" →
  startStream st = setErrorMsg (VStr (validationMessage st)) (resetRun st)
  ∧ sources (startStream st) = sources st
  ∧ eventSourceRef (startStream st) = eventSourceRef st
  ∧ isStreaming (startStream st) = isStreaming st
  ∧ events (startStream st) = idleEvents
  ∧ finalResult (startStream st) = VNull
  ∧ errorMsg (startStream st) = VStr (validationMessage st)
  ∧ truthy (errorMsg (startStream st)) = true
  ∧ overallStatus (startStream st) = (if isStreaming st then RUNNING else ERROR).
Proof.
  intros Hbad. assert (startable st = false) as Hs.
  { unfold startable. destruct Hbad as [Hq%trim_empty_iff | Hd].
    - by rewrite Hq.
    - rewrite Hd. simpl. apply andb_false_r. }
  assert (truthy (VStr (validationMessage st)) = true) as Hmsg.
  { unfold validationMessage.
    by destruct (String.eqb (trim (question st)) ""). }
  rewrite (startStream_invalid _ Hs). split_and!; try done.
  unfold overallStatus. simpl. fold (truthy (VStr (validationMessage st))).
  rewrite Hmsg. by destruct (isStreaming st).
Qed.

(** C3 (as amended). [resetRun] clears [errorMsg] and the result and puts
    every stage back to idle, and touches nothing else: the sources, the
    reference and [isStreaming] stay as they were, so a stream that is open
    stays open and a run that is streaming keeps the phase RUNNING; the
    phase is IDLE after a reset only when nothing is streaming. Resetting
    and stopping are independent of each other. *)
Theorem resetRun_effect st :
  resetRun st =
    mkState (question st) (topKSources st) (docs st) (docId st) idleEvents
      VNull (VStr "") (isStreaming st) (eventSourceRef st) (sources st)
  ∧ overallStatus (resetRun st) = (if isStreaming st then RUNNING else IDLE)
  ∧ resetRun (stopStream st) = stopStream (resetRun st).
Proof.
  split_and!; [done| |].
  - unfold overallStatus. simpl. by destruct (isStreaming st).
  - unfold stopStream. simpl. by destruct (eventSourceRef st).
Qed.

(** C4 (as amended). When the final frame of a run cannot be parsed (or
    parses to [null] or another falsy value) the listener only stops the
    stream: the source is closed, [errorMsg] stays empty, the result stays
    unset and the phase is IDLE. *)
Theorem unparseable_final_frame st0 (evs : list RunEvent) raw st :
  startable st0 = true →
  truthy (safeJsonParse raw) = false →
  runEvents evs (startStream st0) = Some st →
  onFinal raw st = stopStream st
  ∧ is_open (onFinal raw st) (length (sources st0)) = false
  ∧ isStreaming (onFinal raw st) = false
  ∧ errorMsg (onFinal raw st) = VStr ""
  ∧ finalResult (onFinal raw st) = VNull
  ∧ overallStatus (onFinal raw st) = IDLE.
Proof.
  intros Hs Hfalsy Hrun.
  destruct (midRun_runEvents _ evs _ _ (midRun_startStream _ Hs) Hrun)
    as (_ & Hr & _ & He & Hf & _).
  assert (onFinal raw st = stopStream st) as ->.
  { unfold onFinal. rewrite Hfalsy.
    by destruct (safeJsonParse raw) as [| | | | | |]. }
  destruct (stopStream_fields st) as (Hi' & _ & _ & He' & Hf').
  split_and!; try done.
  - by apply is_open_stopStream_ref.
  - congruence.
  - congruence.
  - unfold overallStatus. by rewrite Hi', He', Hf', He, Hf.
Qed.

(** C5 (as amended). A stage event whose identifier is not one of the four
    stages is not ignored unless the identifier is falsy. The identifier is
    turned into a property key, as the computed key [[agent]] does, and the
    event is stored under that key, every other entry staying as it was.
    For a string identifier the key is the identifier, so the entries of
    the four stages are unchanged; an identifier that turns into a stage
    name overwrites that stage's entry; and when the identifier cannot be
    turned into a key the update throws. *)
Theorem unknown_stage_frame raw st :
  isStageName (get (safeJsonParse raw) "agent") = false →
  match stageKey raw with
  | Dropped => onAgent raw st = Some st
  | Throws => onAgent raw st = None
  | Stored k =>
      ∃ st', onAgent raw st = Some st'
        ∧ st' = setEvents (λ _, events st') st
        ∧ events st' !! k =
            Some {| agent := get (safeJsonParse raw) "agent";
                    status :=
                      or_else (get (safeJsonParse raw) "status")
                        (VStr "running");
                    summary := get (safeJsonParse raw) "summary";
                    ms := get (safeJsonParse raw) "ms";
                    details := safeJsonParse raw |}
        ∧ (∀ name, name ≠ k → events st' !! name = events st !! name)
        ∧ (k ∉ AGENTS →
           ∀ name, name ∈ AGENTS → events st' !! name = events st !! name)
  end
  ∧ (∀ s, get (safeJsonParse raw) "agent" = VStr s → s ≠ "" →
       stageKey raw = Stored s ∧ s ∉ AGENTS).
Proof.
  intros Hunknown. split.
  - destruct (stageKey raw) as [|k|] eqn:Hk.
    + by apply onAgent_dropped.
    + pose proof (onAgent_stored _ st _ Hk) as Hst. eexists.
      split; [exact Hst|]. split_and!.
      * done.
      * rewrite (onAgent_lookup _ _ _ _ Hst), decide_True by done. done.
      * intros name Hne. rewrite (onAgent_lookup _ _ _ _ Hst).
        rewrite decide_False; [done|]. rewrite Hk. congruence.
      * intros Hnot name Hin. rewrite (onAgent_lookup _ _ _ _ Hst).
        rewrite decide_False; [done|]. rewrite Hk. congruence.
    + by apply onAgent_throws.
  - intros s Hs Hne. split; [by apply stageKey_name|].
    intros Hin%isStageName_elem. rewrite Hs in Hunknown. congruence.
Qed.


(** C7 (as amended). In a run, a final event whose payload carries a
    truthy error (the listener's test [data?.error]; an empty error text
    counts as none) ends with phase ERROR, [errorMsg] equal to that error
    and the result unset; otherwise a truthy payload is stored as the
    result and the phase is DONE. Either way the stream is closed. *)
Theorem final_event_outcome st0 (evs : list RunEvent) raw st :
  startable st0 = true →
  runEvents evs (startStream st0) = Some st →
  let data := safeJsonParse raw in
  let st' := onFinal raw st in
  isStreaming st' = false
  ∧ eventSourceRef st' = None
  ∧ is_open st' (length (sources st0)) = false
  ∧ if truthy (get data "error") then
      overallStatus st' = ERROR
      ∧ errorMsg st' = get data "error"
      ∧ finalResult st' = VNull
    else if truthy data then
      overallStatus st' = DONE
      ∧ finalResult st' = data
      ∧ errorMsg st' = VStr ""
    else
      overallStatus st' = IDLE.
Proof.
  intros Hs Hrun data st'.
  destruct (midRun_runEvents _ evs _ _ (midRun_startStream _ Hs) Hrun)
    as (_ & Hr & _ & He & Hf & _).
  subst st'. unfold onFinal. fold data.
  set (st1 := if truthy (get data "error") then _ else _).
  assert (eventSourceRef st1 = Some (length (sources st0))) as Hr1.
  { subst st1. by repeat case_match. }
  destruct (stopStream_fields st1) as (Hi' & Hr' & _ & He' & Hf').
  split_and!; [done|done|by apply is_open_stopStream_ref|].
  unfold overallStatus. rewrite Hi', He', Hf'. subst st1.
  destruct (truthy (get data "error")) eqn:Herr; simpl.
  - by rewrite Herr, Hf.
  - destruct (truthy data) eqn:Hd; simpl; by rewrite He, ?Hd, ?Hf.
Qed.

(** C8. After any sequence of stage events applied in order (none of which
    throws on its key, as no valid one does), the entry of each stage
    holds the fields of the last event received for that stage - its
    agent, its status (or [running] when it has none), its summary, its
    time and the whole payload - and the entry it had before if none was
    received; hence two sequences that hold the same events per stage,
    however interleaved across stages, leave the same mapping. *)
Theorem snapshot_last_event_per_stage (raws raws' : list string) st :
  forallb converts raws = true →
  forallb converts raws' = true →
  (∀ k, framesFor k raws' = framesFor k raws) →
  ∃ st1, applyFrames raws st = Some st1
    ∧ (∀ k, events st1 !! k =
              match last (framesFor k raws) with
              | Some raw =>
                  Some {| agent := get (safeJsonParse raw) "agent";
                          status :=
                            or_else (get (safeJsonParse raw) "status")
                              (VStr "running");
                          summary := get (safeJsonParse raw) "summary";
                          ms := get (safeJsonParse raw) "ms";
                          details := safeJsonParse raw |}
              | None => events st !! k
              end)
    ∧ (events <$> applyFrames raws' st) = Some (events st1).
Proof.
  intros Hc Hc' Hsame.
  destruct (applyFrames_converts raws st Hc) as [st1 H1].
  destruct (applyFrames_converts raws' st Hc') as [st2 H2].
  exists st1. split; [done|]. split.
  - intros k. by rewrite (applyFrames_lookup _ _ _ _ H1).
  - rewrite H2. simpl. f_equal. apply map_eq. intros k.
    by rewrite (applyFrames_lookup _ _ _ _ H1),
      (applyFrames_lookup _ _ _ _ H2), Hsame.
Qed.

(** C9. A stage event that cannot be parsed, or whose [agent] is missing (or
    falsy), is dropped: the whole state, and with it the per-stage mapping
    and the phase, is unchanged, and the run goes on. *)
Theorem malformed_stage_event_dropped raw st :
  JSON_parse raw = None ∨ truthy (get (safeJsonParse raw) "agent") = false →
  onAgent raw st = Some st
  ∧ (events <$> onAgent raw st) = Some (events st)
  ∧ (overallStatus <$> onAgent raw st) = Some (overallStatus st)
  ∧ (is_open <$> onAgent raw st) = Some (is_open st).
Proof.
  intros Hbad. assert (onAgent raw st = Some st) as ->; [|done].
  apply onAgent_dropped, stageKey_falsy.
  destruct Hbad as [Hp|Hf]; [|done].
  by rewrite (safeJsonParse_unparseable _ Hp).
Qed.

(** C10 (as amended). A stage event with no status, or a falsy one, is
    applied when its agent is truthy and can be turned into a property
    key: the entry stored for its stage has status [running], not the
    status the stage had before. When the agent is there but falsy (the
    empty string) the event is dropped, and when the agent cannot be
    turned into a key the update throws. *)
Theorem missing_status_defaults_to_running raw st :
  truthy (get (safeJsonParse raw) "status") = false →
  match stageKey raw with
  | Stored k =>
      ∃ st', onAgent raw st = Some st'
        ∧ events st' !! k =
            Some {| agent := get (safeJsonParse raw) "agent";
                    status := VStr "running";
                    summary := get (safeJsonParse raw) "summary";
                    ms := get (safeJsonParse raw) "ms";
                    details := safeJsonParse raw |}
  | Dropped =>
      truthy (get (safeJsonParse raw) "agent") = false
      ∧ onAgent raw st = Some st
  | Throws => onAgent raw st = None
  end.
Proof.
  intros Hs. destruct (stageKey raw) as [|k|] eqn:Hk.
  - split; [|by apply onAgent_dropped]. unfold stageKey in Hk.
    destruct (truthy (get (safeJsonParse raw) "agent")); [|done].
    by destruct (ToPropertyKey _).
  - pose proof (onAgent_stored _ st _ Hk) as Hst. eexists.
    split; [exact Hst|].
    rewrite (onAgent_lookup _ _ _ _ Hst), decide_True by done.
    unfold eventOf, or_else. by rewrite Hs.
  - by apply onAgent_throws.
Qed.

End Facts.

(** ** The claims on concrete runs *)

Section Examples.

Local Existing Instance sampleBuiltins.

(** The first scenario of the specification: start, a [relevance] event,
    the final answer. *)
Example refund_policy_scenario :
  ∃ st, session answeredActions initialState = Some st
        ∧ (status <$> events st !! "relevance") = Some (VStr "done")
        ∧ (summary <$> events st !! "relevance")
          = Some (VStr "Found relevant content")
        ∧ overallStatus st = DONE
        ∧ get (finalResult st) "draft_answer" = VStr "Refunds within 30 days."
        ∧ openSources st = [].
Proof.
  eexists. split; [vm_compute; reflexivity|].
  split_and!; vm_compute; reflexivity.
Qed.

(** C1, counterexample. Two calls of [startStream] in a row, the second
    while the stream of the first is open: the first stream is not closed,
    and two streams are open. *)
Lemma start_twice_two_open_sources :
  ∃ st, handleAll (readyActions ++ [ClickRun; ClickRun])%list initialState
          = Some st
        ∧ is_open st 0 = true
        ∧ is_open st 1 = true
        ∧ length (openSources st) = 2%nat.
Proof.
  eexists. split; [vm_compute; reflexivity|].
  split_and!; vm_compute; reflexivity.
Qed.

(** C1, witness: the session up to the click on Run. *)
Lemma session_at_most_one_open_witness :
  session (readyActions ++ [ClickRun])%list initialState = Some runningState
  ∧ (length (openSources runningState)
     ≤ (if isStreaming runningState then 1 else 0))%nat.
Proof.
  assert (session (readyActions ++ [ClickRun])%list initialState
          = Some runningState) as Hrun by (vm_compute; reflexivity).
  split; [exact Hrun|].
  exact (session_at_most_one_open _ _ Hrun).
Defined.

(** C2, counterexample. After an answered run the question is blanked and
    [startStream] is called: the stages, the result and the phase all
    change. *)
Lemma blank_question_start_resets_run :
  ∃ st, handleAll (answeredActions ++ [ChangeQuestion "   "])%list initialState
          = Some st
        ∧ trim (question st) = ""
        ∧ sources (startStream st) = sources st
        ∧ events (startStream st) ≠ events st
        ∧ finalResult (startStream st) ≠ finalResult st
        ∧ overallStatus st = DONE
        ∧ overallStatus (startStream st) = ERROR.
Proof.
  eexists. split; [vm_compute; reflexivity|].
  split_and!; try (vm_compute; reflexivity).
  - intros Heq. apply (f_equal (λ m, status <$> m !! "relevance")) in Heq.
    vm_compute in Heq. discriminate Heq.
  - intros Heq. vm_compute in Heq. discriminate Heq.
Qed.

(** C3, counterexample. [resetRun] in the middle of a run: the stream stays
    open, the phase stays RUNNING, and the outcome is not the one of a stop
    followed by a reset. *)
Lemma reset_mid_run_keeps_stream :
  is_open runningState 0 = true
  ∧ is_open (resetRun runningState) 0 = true
  ∧ isStreaming (resetRun runningState) = true
  ∧ overallStatus (resetRun runningState) = RUNNING
  ∧ overallStatus (resetRun (stopStream runningState)) = IDLE
  ∧ resetRun runningState ≠ resetRun (stopStream runningState).
Proof.
  split_and!; try (vm_compute; reflexivity).
  intros Heq. apply (f_equal isStreaming) in Heq. vm_compute in Heq.
  discriminate Heq.
Qed.

(** C4, counterexample. A run whose final frame is not JSON ends with phase
    IDLE and an empty [errorMsg]. *)
Lemma garbage_final_ends_idle :
  JSON_parse "not json" = None
  ∧ ∃ st, handleAll (readyActions ++ [ClickRun; EsFinal 0 "not json"])%list
            initialState = Some st
          ∧ overallStatus st = IDLE
          ∧ errorMsg st = VStr "".
Proof.
  split; [vm_compute; reflexivity|].
  eexists. split; [vm_compute; reflexivity|].
  split; vm_compute; reflexivity.
Qed.

(** C5, counterexample. A stage event for the unknown stage [rerank]
    changes the mapping: it gains an entry. *)
Lemma unknown_stage_is_stored :
  get (safeJsonParse (jsonText unknownStage)) "agent" = VStr "rerank"
  ∧ ("rerank" ∉ AGENTS)
  ∧ events runningState !! "rerank" = None
  ∧ ∃ st', onAgent (jsonText unknownStage) runningState = Some st'
           ∧ events st' !! "rerank" = Some (eventOf (jsonValue unknownStage))
           ∧ events st' ≠ events runningState.
Proof.
  assert (events runningState !! "rerank" = None) as Hnone
    by (vm_compute; reflexivity).
  split; [vm_compute; reflexivity|].
  split; [apply (bool_decide_unpack _); vm_compute; exact I|].
  split; [exact Hnone|].
  eexists. split; [vm_compute; reflexivity|].
  assert (∀ m : gmap string AgentEvent,
            m !! "rerank" = Some (eventOf (jsonValue unknownStage)) →
            m ≠ events runningState) as Hne
    by (intros m Hm Heq; rewrite Heq, Hnone in Hm; discriminate Hm).
  split; [vm_compute; reflexivity|].
  apply Hne. vm_compute. reflexivity.
Qed.

(** C7, counterexample. The final payload carries an error field whose
    text is empty: the run ends DONE, with an empty [errorMsg] and the
    payload stored as the result. *)
Lemma empty_error_ends_done :
  get (safeJsonParse (jsonText finalEmptyError)) "error" = VStr ""
  ∧ ∃ st, handleAll
            (readyActions
               ++ [ClickRun; EsFinal 0 (jsonText finalEmptyError)])%list
            initialState = Some st
          ∧ overallStatus st = DONE
          ∧ errorMsg st = VStr ""
          ∧ finalResult st = jsonValue finalEmptyError.
Proof.
  split; [vm_compute; reflexivity|].
  eexists. split; [vm_compute; reflexivity|].
  split_and!; vm_compute; reflexivity.
Qed.

(** C10, counterexample. A stage event that carries the agent field [""]
    and no status is dropped, not applied: the state is unchanged. *)
Lemma empty_agent_is_dropped :
  get (safeJsonParse (jsonText emptyAgent)) "agent" = VStr ""
  ∧ get (safeJsonParse (jsonText emptyAgent)) "status" = VUndefined
  ∧ onAgent (jsonText emptyAgent) runningState = Some runningState.
Proof.
  split; [vm_compute; reflexivity|]. split; [vm_compute; reflexivity|].
  apply onAgent_dropped. vm_compute. reflexivity.
Qed.

(** C2, witness: a question of three spaces. *)
Lemma startStream_rejected_witness :
  (all_ws (question (setQuestion "   " readyState)) = true
   ∨ docId (setQuestion "   " readyState) = "")
  ∧ events (startStream (setQuestion "   " readyState)) = idleEvents
  ∧ errorMsg (startStream (setQuestion "   " readyState))
    = VStr "Please enter a question.".
Proof.
  assert (all_ws (question (setQuestion "   " readyState)) = true
          ∨ docId (setQuestion "   " readyState) = "") as Hbad
    by (left; vm_compute; reflexivity).
  split; [exact Hbad|].
  destruct (startStream_rejected (setQuestion "   " readyState) Hbad)
    as (_ & _ & _ & _ & He & _ & Hm & _ & _).
  split; [exact He|]. rewrite Hm. vm_compute. reflexivity.
Defined.

(** C4, witness: the final frame of a run is not JSON. *)
Lemma unparseable_final_frame_witness :
  startable readyState = true
  ∧ truthy (safeJsonParse "not json") = false
  ∧ runEvents [AgentFrame (jsonText relevanceDone)] (startStream readyState)
    = Some afterRelevance
  ∧ overallStatus (onFinal "not json" afterRelevance) = IDLE.
Proof.
  assert (startable readyState = true) as Hs by (vm_compute; reflexivity).
  assert (truthy (safeJsonParse "not json") = false) as Hf
    by (vm_compute; reflexivity).
  assert (runEvents [AgentFrame (jsonText relevanceDone)]
            (startStream readyState) = Some afterRelevance) as Hrun
    by (vm_compute; reflexivity).
  split; [exact Hs|]. split; [exact Hf|]. split; [exact Hrun|].
  exact (proj2 (proj2 (proj2 (proj2 (proj2
    (unparseable_final_frame readyState
       [AgentFrame (jsonText relevanceDone)] "not json" afterRelevance
       Hs Hf Hrun)))))).
Defined.

(** C5, witness: the frame of the unknown stage [rerank]. *)
Lemma unknown_stage_frame_witness :
  isStageName (get (safeJsonParse (jsonText unknownStage)) "agent") = false
  ∧ stageKey (jsonText unknownStage) = Stored "rerank"
  ∧ ("rerank" ∉ AGENTS).
Proof.
  assert (isStageName (get (safeJsonParse (jsonText unknownStage)) "agent")
          = false) as Hu by (vm_compute; reflexivity).
  split; [exact Hu|].
  apply (proj2 (unknown_stage_frame (jsonText unknownStage) runningState Hu)
           "rerank").
  - vm_compute. reflexivity.
  - discriminate.
Defined.


(** C7, witness: the run of the specification's scenario, ended by the
    error payload. *)
Lemma final_event_outcome_witness :
  startable readyState = true
  ∧ runEvents [AgentFrame (jsonText relevanceDone)] (startStream readyState)
    = Some afterRelevance
  ∧ truthy (get (safeJsonParse (jsonText finalError)) "error") = true
  ∧ overallStatus (onFinal (jsonText finalError) afterRelevance) = ERROR
  ∧ errorMsg (onFinal (jsonText finalError) afterRelevance)
    = VStr "LLM quota exceeded".
Proof.
  assert (startable readyState = true) as Hs by (vm_compute; reflexivity).
  assert (runEvents [AgentFrame (jsonText relevanceDone)]
            (startStream readyState) = Some afterRelevance) as Hrun
    by (vm_compute; reflexivity).
  assert (truthy (get (safeJsonParse (jsonText finalError)) "error") = true)
    as Herr by (vm_compute; reflexivity).
  split; [exact Hs|]. split; [exact Hrun|]. split; [exact Herr|].
  pose proof (final_event_outcome readyState
                [AgentFrame (jsonText relevanceDone)] (jsonText finalError)
                afterRelevance Hs Hrun)
    as (_ & _ & _ & Hout).
  rewrite Herr in Hout. destruct Hout as (Hp & Hm & _).
  split; [exact Hp|]. rewrite Hm. vm_compute. reflexivity.
Defined.

(** C8, witness: the same two events, for two stages, in either order;
    the [relevance] entry holds the fields of the [relevance] event. *)
Lemma snapshot_last_event_per_stage_witness :
  forallb converts [jsonText relevanceDone; jsonText verifyDone] = true
  ∧ forallb converts [jsonText verifyDone; jsonText relevanceDone] = true
  ∧ (∀ k, framesFor k [jsonText verifyDone; jsonText relevanceDone]
          = framesFor k [jsonText relevanceDone; jsonText verifyDone])
  ∧ ∃ st1,
      applyFrames [jsonText relevanceDone; jsonText verifyDone] runningState
        = Some st1
      ∧ events st1 !! "relevance" =
          Some {| agent := VStr "relevance";
                  status := VStr "done";
                  summary := VStr "Found relevant content";
                  ms := VUndefined;
                  details := jsonValue relevanceDone |}
      ∧ (events <$>
           applyFrames [jsonText verifyDone; jsonText relevanceDone]
             runningState) = Some (events st1).
Proof.
  assert (forallb converts [jsonText relevanceDone; jsonText verifyDone]
          = true) as Hc by (vm_compute; reflexivity).
  assert (forallb converts [jsonText verifyDone; jsonText relevanceDone]
          = true) as Hc' by (vm_compute; reflexivity).
  assert (∀ k, framesFor k [jsonText verifyDone; jsonText relevanceDone]
               = framesFor k [jsonText relevanceDone; jsonText verifyDone])
    as Hsame.
  { intros k. unfold framesFor. rewrite !filter_cons, !filter_nil.
    change (stageKey (jsonText verifyDone)) with (Stored "verify").
    change (stageKey (jsonText relevanceDone)) with (Stored "relevance").
    destruct (decide (Stored "verify" = Stored k)) as [Hv|Hv];
      destruct (decide (Stored "relevance" = Stored k)) as [Hr|Hr];
      try reflexivity.
    rewrite <- Hv in Hr. discriminate Hr. }
  split; [exact Hc|]. split; [exact Hc'|]. split; [exact Hsame|].
  destruct (snapshot_last_event_per_stage _ _ runningState Hc Hc' Hsame)
    as (st1 & Hrun & Hlook & Horder).
  exists st1. split; [exact Hrun|]. split; [|exact Horder].
  rewrite (Hlook "relevance"). vm_compute. reflexivity.
Defined.

(** C9, witness: a frame that is not JSON. *)
Lemma malformed_stage_event_dropped_witness :
  (JSON_parse "not json" = None
   ∨ truthy (get (safeJsonParse "not json") "agent") = false)
  ∧ onAgent "not json" runningState = Some runningState.
Proof.
  assert (JSON_parse "not json" = None
          ∨ truthy (get (safeJsonParse "not json") "agent") = false) as Hbad
    by (left; vm_compute; reflexivity).
  split; [exact Hbad|].
  exact (proj1 (malformed_stage_event_dropped "not json" runningState Hbad)).
Defined.

(** C10, witness: a [retrieval] event without a status. *)
Lemma missing_status_defaults_to_running_witness :
  truthy (get (safeJsonParse (jsonText retrievalBare)) "status") = false
  ∧ stageKey (jsonText retrievalBare) = Stored "retrieval"
  ∧ ∃ st', onAgent (jsonText retrievalBare) runningState = Some st'
           ∧ (status <$> events st' !! "retrieval") = Some (VStr "running").
Proof.
  assert (truthy (get (safeJsonParse (jsonText retrievalBare)) "status")
          = false) as Hs by (vm_compute; reflexivity).
  assert (stageKey (jsonText retrievalBare) = Stored "retrieval") as Hk
    by (vm_compute; reflexivity).
  split; [exact Hs|]. split; [exact Hk|].
  pose proof (missing_status_defaults_to_running (jsonText retrievalBare)
                runningState Hs) as Hev.
  rewrite Hk in Hev. destruct Hev as (st' & Hst & Hev).
  exists st'. split; [exact Hst|]. rewrite Hev. reflexivity.
Defined.

End Examples.

(** * Further properties of the page *)

Section Further.

Context {B : Builtins}.

Implicit Types (st : State) (raw : string) (k : string).

(** *** Trimming twice *)

Lemma trim_end_cons a r :
  trim_end (String a r) =
    match trim_end r with
    | EmptyString => if is_ws a then EmptyString else String a EmptyString
    | r' => String a r'
    end.
Proof. done. Qed.

Lemma trim_end_idem s : trim_end (trim_end s) = trim_end s.
Proof.
  induction s as [|a r IH]; [done|].
  rewrite trim_end_cons. destruct (trim_end r) as [|b u] eqn:Hr.
  - destruct (is_ws a) eqn:Ha; [done|].
    rewrite trim_end_cons. simpl. by rewrite Ha.
  - rewrite trim_end_cons. by rewrite IH.
Qed.

Lemma trim_end_keeps_head a r :
  is_ws a = false → ∃ r', trim_end (String a r) = String a r'.
Proof.
  intros Ha. rewrite trim_end_cons, Ha. destruct (trim_end r); eauto.
Qed.

Lemma trim_idem s : trim (trim s) = trim s.
Proof.
  unfold trim. destruct (all_ws s) eqn:Hs.
  - by rewrite (trim_start_all_ws _ Hs).
  - destruct (trim_start_not_all_ws _ Hs) as (a & r & -> & Ha).
    destruct (trim_end_keeps_head a r Ha) as [r' Hr'].
    assert (trim_start (trim_end (String a r)) = trim_end (String a r))
      as -> by (rewrite Hr'; simpl; by rewrite Ha).
    apply trim_end_idem.
Qed.

(** *** What one handler does to the sources, the stages and the
    reference *)

Lemma events_setEvents f st : events (setEvents f st) = f (events st).
Proof. done. Qed.

Lemma events_setErrorMsg v st : events (setErrorMsg v st) = events st.
Proof. done. Qed.

Lemma stopStream_sources st :
  sources (stopStream st) =
    match eventSourceRef st with
    | Some i => alter es_close i (sources st)
    | None => sources st
    end.
Proof. unfold stopStream. by destruct (eventSourceRef st). Qed.

Lemma onFinal_fields raw st :
  events (onFinal raw st) = events st
  ∧ isStreaming (onFinal raw st) = false
  ∧ eventSourceRef (onFinal raw st) = None
  ∧ sources (onFinal raw st) = sources (stopStream st).
Proof.
  unfold onFinal.
  set (st1 := if truthy (get (safeJsonParse raw) "error") then _ else _).
  assert (events st1 = events st ∧ eventSourceRef st1 = eventSourceRef st
          ∧ sources st1 = sources st) as (He & Hr & Hs)
    by (subst st1; by repeat case_match).
  destruct (stopStream_fields st1) as (Hi & Hr' & He' & _).
  split_and!; [congruence|done|done|].
  by rewrite !stopStream_sources, Hr, Hs.
Qed.

Lemma onError_inv st st' :
  onError st = Some st' →
  ∃ v, events st !! "verify" = Some v
       ∧ st' =
           setEvents
             (λ prev,
                <["verify" :=
                    with_status v
                      (if is_str (status v) "done" then VStr "done"
                       else VStr "error")]> prev)
             (setErrorMsg (VStr streamErrorMsg) (stopStream st)).
Proof.
  destruct (events st !! "verify") as [v|] eqn:Hv.
  - rewrite (onError_some _ _ Hv). intros [= <-]. eauto.
  - unfold onError, markVerify.
    destruct (stopStream_fields st) as (_ & _ & He & _).
    replace (events (setErrorMsg (VStr streamErrorMsg) (stopStream st)))
      with (events st) by done.
    by rewrite Hv.
Qed.

(** The three things a handler can do to the list of sources. *)
Lemma handle_sources a st st' :
  handle a st = Some st' →
  sources st' = sources st
  ∨ (∃ i, sources st' = alter es_close i (sources st))
  ∨ (startable st = true ∧ sources st' = (sources st ++ [newSource st])%list).
Proof.
  destruct a as [| | |q|d|n|l|m|i raw|i raw|i]; simpl.
  - intros [= <-]. destruct (startable st) eqn:Hs.
    + rewrite (startStream_valid _ Hs). by right; right.
    + rewrite (startStream_invalid _ Hs). by left.
  - intros [= <-]. rewrite stopStream_sources.
    destruct (eventSourceRef st); eauto.
  - intros [= <-]. by left.
  - intros [= <-]. by left.
  - intros [= <-]. by left.
  - intros [= <-]. by left.
  - intros [= <-]. left. unfold onDocsLoaded. by destruct l.
  - intros [= <-]. by left.
  - intros Ha. left. by destruct (onAgent_fields _ _ _ Ha) as (-> & _).
  - intros [= <-]. destruct (onFinal_fields raw st) as (_ & _ & _ & ->).
    rewrite stopStream_sources. destruct (eventSourceRef st); eauto.
  - intros (v & _ & ->)%onError_inv.
    change (sources (setEvents _ (setErrorMsg _ (stopStream st))))
      with (sources (stopStream st)).
    rewrite stopStream_sources. destruct (eventSourceRef st); eauto.
Qed.

Lemma coherent_stopStream st : coherent (stopStream st).
Proof.
  unfold coherent.
  by destruct (stopStream_fields st) as (-> & -> & _).
Qed.

Lemma coherent_same st st' :
  sources st' = sources st →
  eventSourceRef st' = eventSourceRef st →
  isStreaming st' = isStreaming st →
  coherent st → coherent st'.
Proof.
  unfold coherent. intros Hs -> ->.
  destruct (eventSourceRef st); [|done]. by rewrite (is_open_same _ _ _ Hs).
Qed.

Lemma handle_coherent a st st' :
  coherent st → handle a st = Some st' → coherent st'.
Proof.
  intros Hc. destruct a as [| | |q|d|n|l|m|i raw|i raw|i]; simpl.
  - intros [= <-]. destruct (startable st) eqn:Hs.
    + destruct (midRun_startStream _ Hs) as (Hi & Hr & Ho & _).
      unfold coherent. by rewrite Hr.
    + rewrite (startStream_invalid _ Hs). by apply (coherent_same st).
  - intros [= <-]. apply coherent_stopStream.
  - intros [= <-]. by apply (coherent_same st).
  - intros [= <-]. by apply (coherent_same st).
  - intros [= <-]. by apply (coherent_same st).
  - intros [= <-]. by apply (coherent_same st).
  - intros [= <-]. unfold onDocsLoaded.
    apply (coherent_same st); [..|done]; by destruct l.
  - intros [= <-]. by apply (coherent_same st).
  - intros Ha. destruct (onAgent_fields _ _ _ Ha) as (? & ? & ? & _).
    by apply (coherent_same st).
  - intros [= <-]. unfold coherent.
    by destruct (onFinal_fields raw st) as (_ & -> & -> & _).
  - intros (v & _ & ->)%onError_inv.
    apply (coherent_same (stopStream st)); [done..|].
    apply coherent_stopStream.
Qed.

Lemma hasStages_verify st : hasStages st → is_Some (events st !! "verify").
Proof.
  unfold hasStages, AGENTS. intros H.
  by repeat (apply Forall_cons in H as [? H]).
Qed.

Lemma hasStages_mono st st' :
  (∀ key, is_Some (events st !! key) → is_Some (events st' !! key)) →
  hasStages st → hasStages st'.
Proof. intros Hm Hh. unfold hasStages. by eapply Forall_impl. Qed.

Lemma hasStages_idle st : events st = idleEvents → hasStages st.
Proof.
  intros He. unfold hasStages, AGENTS. rewrite He.
  repeat constructor; by eexists (idleEvent _).
Qed.

Lemma handle_hasStages a st st' :
  hasStages st → handle a st = Some st' → hasStages st'.
Proof.
  intros Hh Ha. destruct a as [| | |q|d|n|l|m|i raw|i raw|i]; simpl in Ha;
    try (injection Ha as <-).
  - destruct (startable st) eqn:Hs.
    + rewrite (startStream_valid _ Hs).
      apply (hasStages_mono (resetRun st)); [|by apply hasStages_idle].
      intros key Hk. cbn [events] in *. unfold markRelevance.
      apply lookup_insert_is_Some'. by right.
    + rewrite (startStream_invalid _ Hs). by apply hasStages_idle.
  - apply (hasStages_mono st); [|done]. intros key.
    by destruct (stopStream_fields st) as (_ & _ & -> & _).
  - by apply hasStages_idle.
  - done.
  - done.
  - done.
  - apply (hasStages_mono st); [|done]. unfold onDocsLoaded. by destruct l.
  - done.
  - apply (hasStages_mono st); [|done]. intros key Hk.
    rewrite (onAgent_lookup _ _ _ _ Ha). by case_decide.
  - apply (hasStages_mono st); [|done]. intros key.
    by destruct (onFinal_fields raw st) as (-> & _).
  - apply onError_inv in Ha as (v & Hv & ->).
    apply (hasStages_mono st); [|done].
    intros key Hk. rewrite events_setEvents, events_setErrorMsg.
    apply lookup_insert_is_Some'. right.
    by destruct (stopStream_fields st) as (_ & _ & -> & _).
Qed.

(** A handler returns unless it is a stage event whose key throws. *)
Lemma handle_returns a st :
  hasStages st → keyConverts a = true → is_Some (handle a st).
Proof.
  intros Hh Hc. destruct a as [| | |q|d|n|l|m|i raw|i raw|i]; simpl; eauto.
  - by apply onAgent_converts.
  - destruct (hasStages_verify _ Hh) as [v Hv]. rewrite (onError_some _ _ Hv).
    eauto.
Qed.

(** *** Sequences of handler calls *)

Lemma handleAll_preserves (P : State → Prop) :
  (∀ a st st', P st → handle a st = Some st' → P st') →
  ∀ acts st st', P st → handleAll acts st = Some st' → P st'.
Proof.
  intros Hstep acts. induction acts as [|a acts IH]; intros st st' HP; simpl.
  - by intros [= <-].
  - destruct (handle a st) as [st1|] eqn:Ha; [|done]. eauto.
Qed.

Lemma session_preserves (P : State → Prop) :
  (∀ a st st', P st → handle a st = Some st' → P st') →
  ∀ acts st st', P st → session acts st = Some st' → P st'.
Proof.
  intros Hstep acts. induction acts as [|a acts IH]; intros st st' HP; simpl.
  - by intros [= <-].
  - destruct (enabled st a); [|by eauto].
    destruct (handle a st) as [st1|] eqn:Ha; [|done]. eauto.
Qed.

Lemma handleAll_returns acts st :
  hasStages st → forallb keyConverts acts = true →
  is_Some (handleAll acts st).
Proof.
  revert st. induction acts as [|a acts IH]; intros st Hh; simpl; [eauto|].
  intros [Hc Hall]%andb_true_iff.
  destruct (handle_returns a st Hh Hc) as [st1 Ha]. rewrite Ha.
  apply IH; [|done]. by apply (handle_hasStages a st).
Qed.

Lemma hasStages_initial : hasStages initialState.
Proof. by apply hasStages_idle. Qed.

Lemma coherent_initial : coherent initialState.
Proof. done. Qed.

Lemma newSource_wellFormed st :
  startable st = true → wellFormedSource (newSource st) = true.
Proof.
  unfold startable, wellFormedSource, newSource. simpl.
  intros [Hq Hd]%andb_true_iff.
  rewrite String.eqb_refl, Hq, Hd, trim_idem, String.eqb_refl. done.
Qed.

Lemma handle_wellFormed a st st' :
  Forall (λ e, wellFormedSource e = true) (sources st) →
  handle a st = Some st' →
  Forall (λ e, wellFormedSource e = true) (sources st').
Proof.
  intros Hwf [->|[[i ->]|[Hs ->]]]%handle_sources; [done| |].
  - apply Forall_alter; [done|]. by intros [base params closed] _.
  - apply Forall_app. split; [done|].
    constructor; [by apply newSource_wellFormed|constructor].
Qed.

Lemma handle_sources_grow a st st' i e :
  handle a st = Some st' →
  sources st !! i = Some e →
  ∃ e', sources st' !! i = Some e'
        ∧ es_base e' = es_base e
        ∧ es_params e' = es_params e
        ∧ (es_closed e = true → es_closed e' = true).
Proof.
  intros [->|[[j ->]|[Hs ->]]]%handle_sources Hi.
  - eauto.
  - destruct (decide (j = i)) as [->|Hne].
    + exists (es_close e). rewrite list_lookup_alter_eq, Hi. done.
    + exists e. by rewrite list_lookup_alter_ne.
  - exists e. split; [|done]. by apply lookup_app_l_Some.
Qed.

Lemma handle_sources_length a st st' :
  handle a st = Some st' →
  (length (sources st) ≤ length (sources st'))%nat.
Proof.
  intros [->|[[j ->]|[Hs ->]]]%handle_sources.
  - done.
  - by rewrite length_alter.
  - rewrite length_app. lia.
Qed.

(** X1. In every state reached by a sequence of handler calls from the
    first render, each stage of [AGENTS] has an entry in [events], so
    [es.onerror], which reads [prev.verify.status], returns there. *)
Theorem stages_kept_and_onerror_returns (acts : list Action) st :
  handleAll acts initialState = Some st →
  Forall (λ key, is_Some (events st !! key)) AGENTS
  ∧ is_Some (onError st).
Proof.
  intros Hrun. assert (hasStages st) as Hh.
  { apply (handleAll_preserves hasStages) with (acts := acts)
      (st := initialState); [|apply hasStages_initial|done].
    intros a s s' Hs Ha. by apply (handle_hasStages a s). }
  split; [exact Hh|].
  destruct (hasStages_verify _ Hh) as [v Hv]. rewrite (onError_some _ _ Hv).
  eauto.
Qed.

(** X2. After any sequence of handler calls, [isStreaming] is set exactly
    when [eventSourceRef] holds a source, and the source it holds is
    open. *)
Theorem reference_tracks_streaming (acts : list Action) st :
  handleAll acts initialState = Some st →
  match eventSourceRef st with
  | Some i => isStreaming st = true ∧ is_open st i = true
  | None => isStreaming st = false
  end.
Proof.
  intros Hrun.
  apply (handleAll_preserves coherent) with (acts := acts)
    (st := initialState); [|done..].
  intros a s s' Hc Ha. by apply (handle_coherent a s).
Qed.

(** X3. Every source ever created asks the stream endpoint with a trimmed,
    non-empty question and a non-empty document id, whatever the sequence
    of handler calls. *)
Theorem sources_are_well_formed (acts : list Action) st :
  handleAll acts initialState = Some st →
  Forall (λ e, wellFormedSource e = true) (sources st).
Proof.
  intros Hrun.
  apply (handleAll_preserves
           (λ s, Forall (λ e, wellFormedSource e = true) (sources s)))
    with (acts := acts) (st := initialState); [|done..].
  intros a s s' Hwf Ha. by apply (handle_wellFormed a s).
Qed.

(** X4. Handlers only append to the sources: an existing source keeps its
    position and its URL, and once closed it is never open again. *)
Theorem sources_only_grow (acts : list Action) st st' :
  handleAll acts st = Some st' →
  (length (sources st) ≤ length (sources st'))%nat
  ∧ ∀ i e, sources st !! i = Some e →
      ∃ e', sources st' !! i = Some e'
            ∧ es_base e' = es_base e
            ∧ es_params e' = es_params e
            ∧ (es_closed e = true → es_closed e' = true).
Proof.
  revert st. induction acts as [|a acts IH]; intros st; simpl.
  - intros [= <-]. split; [done|]. eauto.
  - destruct (handle a st) as [st1|] eqn:Ha; [|done]. intros Hrest.
    destruct (IH _ Hrest) as [Hlen Hkeep]. split.
    + pose proof (handle_sources_length _ _ _ Ha). lia.
    + intros i e Hi.
      destruct (handle_sources_grow _ _ _ _ _ Ha Hi)
        as (e1 & Hi1 & Hb1 & Hp1 & Hc1).
      destruct (Hkeep _ _ Hi1) as (e' & Hi' & Hb' & Hp' & Hc').
      exists e'. split_and!; [done|congruence|congruence|tauto].
Qed.

(** *** Sessions with the page *)

Lemma session_coherent acts st :
  session acts initialState = Some st → coherent st.
Proof.
  intros Hrun.
  apply (session_preserves coherent) with (acts := acts)
    (st := initialState); [|done..].
  intros a s s' Hc Ha. by apply (handle_coherent a s).
Qed.

Lemma is_open_openSources st i :
  is_open st i = true → (1 ≤ length (openSources st))%nat.
Proof.
  unfold is_open, openSources.
  destruct (sources st !! i) as [e|] eqn:Hi; [|done]. intros Ho.
  assert (e ∈ filter (λ e, es_closed e = false) (sources st)) as He.
  { apply list_elem_of_filter. split; [by destruct (es_closed e)|].
    by eapply list_elem_of_lookup_2. }
  destruct (filter _ (sources st)); [by apply elem_of_nil in He|simpl; lia].
Qed.

Lemma pageInv_all_closed st i :
  pageInv st → isStreaming st = false → is_open st i = false.
Proof.
  intros (Hopen & Href & _) Hidle. destruct (is_open st i) eqn:Ho; [|done].
  apply Hopen in Ho. rewrite Ho in Href. rewrite Href in Hidle by eauto. done.
Qed.

(** X5. In a session with the page exactly one stream is open while
    [isStreaming] is set, and none is open otherwise. *)
Theorem session_open_count (acts : list Action) st :
  session acts initialState = Some st →
  length (openSources st) = (if isStreaming st then 1 else 0)%nat.
Proof.
  intros Hrun.
  pose proof (pageInv_session acts _ _ pageInv_initial Hrun) as Hinv.
  pose proof (session_coherent _ _ Hrun) as Hc.
  destruct (isStreaming st) eqn:Hi.
  - pose proof (pageInv_le1 _ Hinv). unfold coherent in Hc.
    destruct (eventSourceRef st) as [i|]; [|congruence].
    destruct Hc as [_ Ho]. apply is_open_openSources in Ho. lia.
  - by rewrite (pageInv_idle _ Hinv Hi).
Qed.

(** X6. Once a session is not streaming (before the first start, after a
    stop, a final event or a transport error), stream events that arrive
    late are not delivered: they change nothing. *)
Theorem late_stream_events_ignored (acts late : list Action) st :
  session acts initialState = Some st →
  isStreaming st = false →
  forallb isStreamEvent late = true →
  session late st = Some st.
Proof.
  intros Hrun Hidle Hlate.
  pose proof (pageInv_session acts _ _ pageInv_initial Hrun) as Hinv.
  induction late as [|a late IH]; [done|].
  simpl in Hlate. apply andb_true_iff in Hlate as [Ha Hlate]. simpl.
  assert (enabled st a = false) as ->; [|by apply IH].
  destruct a; try done; simpl; by apply pageInv_all_closed.
Qed.

(** X7. After any sequence of handler calls, [stopStream] on a page that is
    not streaming changes nothing. *)
Theorem stop_when_idle_is_noop (acts : list Action) st :
  handleAll acts initialState = Some st →
  isStreaming st = false →
  stopStream st = st.
Proof.
  intros Hrun Hidle.
  assert (coherent st) as Hc.
  { apply (handleAll_preserves coherent) with (acts := acts)
      (st := initialState); [|done..].
    intros a s s' Hs Ha. by apply (handle_coherent a s). }
  unfold coherent in Hc. unfold stopStream.
  destruct (eventSourceRef st) as [i|]; [destruct Hc; congruence|].
  destruct st. simpl in *. by subst.
Qed.

(** X8. Whenever the Run button is enabled, [startStream] gets past both of
    its validation returns: it opens a well-formed source, holds it in
    [eventSourceRef], clears the error and the phase is RUNNING. *)
Theorem run_button_start_succeeds st :
  enabled st ClickRun = true →
  sources (startStream st) = (sources st ++ [newSource st])%list
  ∧ wellFormedSource (newSource st) = true
  ∧ eventSourceRef (startStream st) = Some (length (sources st))
  ∧ errorMsg (startStream st) = VStr ""
  ∧ finalResult (startStream st) = VNull
  ∧ overallStatus (startStream st) = RUNNING.
Proof.
  simpl. intros Hen. assert (startable st = true) as Hs.
  { unfold startable. destruct (isStreaming st); [done|]. simpl in Hen.
    destruct (String.eqb (trim (question st)) ""); [done|].
    by destruct (String.eqb (docId st) ""). }
  rewrite (startStream_valid _ Hs).
  split_and!; try done. by apply newSource_wellFormed.
Qed.

Lemma handle_docId a st st' :
  handle a st = Some st' →
  selectsNoDocument a = true → docId st = "" → docId st' = "".
Proof.
  intros Ha Hsel Hd.
  destruct a as [| | |q|d|n|l|m|i raw|i raw|i]; simpl in *;
    try (injection Ha as <-); try done.
  - assert (startable st = false) as Hst
      by (unfold startable; rewrite Hd; simpl; apply andb_false_r).
    by rewrite (startStream_invalid _ Hst).
  - unfold stopStream. by case_match.
  - by apply String.eqb_eq.
  - unfold onDocsLoaded. destruct l as [|d0 l]; [done|].
    by apply String.eqb_eq.
  - by rewrite (onAgent_frame _ _ _ Ha).
  - unfold onFinal, stopStream. by repeat case_match.
  - apply onError_inv in Ha as (v & _ & ->).
    change (docId (stopStream st) = ""). unfold stopStream. by case_match.
Qed.

Lemma coherent_no_sources st :
  coherent st → sources st = [] → isStreaming st = false.
Proof.
  unfold coherent, is_open. intros Hc Hs.
  destruct (eventSourceRef st) as [i|]; [|done].
  rewrite Hs in Hc. by destruct Hc as [_ Ho].
Qed.

(** X9. As long as no document id has been set (the list never arrived, or
    was empty), no sequence of handler calls opens a stream: [startStream]
    returns at its validation. *)
Theorem no_document_no_stream (acts : list Action) :
  forallb selectsNoDocument acts = true →
  forallb keyConverts acts = true →
  ∃ st, handleAll acts initialState = Some st
        ∧ sources st = []
        ∧ docId st = ""
        ∧ isStreaming st = false.
Proof.
  assert (∀ st, hasStages st → coherent st → sources st = [] →
                docId st = "" →
                forallb selectsNoDocument acts = true →
                forallb keyConverts acts = true →
                ∃ st', handleAll acts st = Some st' ∧ sources st' = []
                       ∧ docId st' = "" ∧ isStreaming st' = false) as Hgen.
  { induction acts as [|a acts IH]; intros st Hh Hc Hs Hd Hall Hconv; simpl.
    - exists st. split_and!; try done. by apply coherent_no_sources.
    - simpl in Hall, Hconv.
      apply andb_true_iff in Hall as [Ha Hall].
      apply andb_true_iff in Hconv as [Hca Hconv].
      destruct (handle_returns a st Hh Hca) as [st1 Hst1].
      rewrite Hst1. apply IH; try done.
      + by apply (handle_hasStages a st).
      + by apply (handle_coherent a st).
      + apply handle_sources in Hst1 as [->|[[i ->]|[Hst ->]]]; [done| |].
        * by rewrite Hs.
        * unfold startable in Hst. rewrite Hd in Hst. simpl in Hst.
          by rewrite andb_false_r in Hst.
      + by apply (handle_docId a st). }
  intros Hall Hconv.
  by apply Hgen; [apply hasStages_initial|apply coherent_initial|..].
Qed.

(** *** The status badges *)

(** X11. A stage event for one of the four stages whose status is truthy
    but not a string is stored all the same, and the trace can no longer
    render: the badge of that stage throws. *)
Theorem badge_throws_on_non_text_status (toUpperCase : string → string)
    raw st key :
  stageKey raw = Stored key →
  key ∈ AGENTS →
  storesTextStatus raw = false →
  ∃ st', onAgent raw st = Some st'
         ∧ traceBadges toUpperCase st' = None.
Proof.
  intros Hk Hin Hbad. pose proof (onAgent_stored _ st _ Hk) as Hst.
  eexists. split; [exact Hst|].
  destruct (traceBadges toUpperCase _) as [l|] eqn:Hb; [|done].
  assert (is_Some (traceBadges toUpperCase
            (setEvents (λ prev, <[key := eventOf (safeJsonParse raw)]> prev)
               st))) as Hsome by (rewrite Hb; eauto).
  apply mapM_is_Some_1 in Hsome.
  pose proof (proj1 (Forall_forall _ _) Hsome key Hin) as [x Hx].
  cbn [compose] in Hx.
  rewrite (onAgent_lookup _ _ _ _ Hst), decide_True in Hx by done.
  unfold storesTextStatus in Hbad. cbn [mbind option_bind] in Hx.
  unfold Badge in Hx.
  by destruct (status (eventOf (safeJsonParse raw))).
Qed.

(** *** Runs and stage events *)

Lemma applyFrames_frame raws st st' :
  applyFrames raws st = Some st' → st' = setEvents (λ _, events st') st.
Proof.
  revert st. induction raws as [|raw raws IH]; intros st; simpl.
  - intros [= <-]. by destruct st.
  - destruct (onAgent raw st) as [st1|] eqn:Ha; [|done]. intros Hrest.
    rewrite (IH _ Hrest) at 1. by rewrite (onAgent_frame _ _ _ Ha).
Qed.

(** X12. Stopping in the middle of a run closes its source and puts the
    phase back to IDLE; the stage entries received so far stay, and no
    result or error appears. *)
Theorem cancel_mid_run st0 (evs : list RunEvent) st :
  startable st0 = true →
  runEvents evs (startStream st0) = Some st →
  overallStatus (stopStream st) = IDLE
  ∧ events (stopStream st) = events st
  ∧ is_open (stopStream st) (length (sources st0)) = false
  ∧ eventSourceRef (stopStream st) = None
  ∧ finalResult (stopStream st) = VNull
  ∧ errorMsg (stopStream st) = VStr "".
Proof.
  intros Hs Hrun.
  destruct (midRun_runEvents _ evs _ _ (midRun_startStream _ Hs) Hrun)
    as (_ & Hr & _ & He & Hf & _).
  destruct (stopStream_fields st) as (Hi' & Hr' & Hev' & He' & Hf').
  split_and!; try congruence.
  - unfold overallStatus. by rewrite Hi', He', Hf', He, Hf.
  - by apply is_open_stopStream_ref.
Qed.

(** X13. Stage events write the stage entries and nothing else, and a
    reset wipes whatever they wrote: resetting after any number of stage
    events is the same as resetting before them, and resetting twice is
    resetting once. *)
Theorem reset_erases_stage_events (raws : list string) st st1 :
  applyFrames raws st = Some st1 →
  st1 = setEvents (λ _, events st1) st
  ∧ overallStatus st1 = overallStatus st
  ∧ resetRun st1 = resetRun st
  ∧ resetRun (resetRun st) = resetRun st.
Proof.
  intros Hrun. pose proof (applyFrames_frame _ _ _ Hrun) as Hf.
  split_and!; [done| | |done]; by rewrite Hf.
Qed.

(** X14. A later event for a stage replaces an earlier one for the same
    stage entirely: no field of the earlier event survives. *)
Theorem later_event_replaces_earlier raw1 raw2 st :
  stageKey raw1 = stageKey raw2 →
  (onAgent raw1 st ≫= onAgent raw2) = onAgent raw2 st.
Proof.
  intros Hk. destruct (stageKey raw2) as [|key|] eqn:Hk2.
  - by rewrite (onAgent_dropped raw1 _ Hk).
  - rewrite (onAgent_stored raw1 _ _ Hk). cbn [mbind option_bind].
    rewrite !(onAgent_stored raw2 _ _ Hk2). f_equal.
    destruct st. unfold setEvents.
    cbn [question topKSources docs docId events finalResult errorMsg
         isStreaming eventSourceRef sources].
    by rewrite insert_insert_eq.
  - by rewrite (onAgent_throws raw1 _ Hk), (onAgent_throws raw2 _ Hk2).
Qed.

(** X15. Events for different stages can be applied in either order. *)
Theorem different_stages_commute raw1 raw2 st :
  stageKey raw1 ≠ stageKey raw2 →
  (onAgent raw2 st ≫= onAgent raw1) = (onAgent raw1 st ≫= onAgent raw2).
Proof.
  intros Hne.
  destruct (stageKey raw1) as [|k1|] eqn:Hk1;
    destruct (stageKey raw2) as [|k2|] eqn:Hk2; try done;
    rewrite ?(onAgent_dropped raw1 st Hk1), ?(onAgent_dropped raw2 st Hk2),
      ?(onAgent_stored raw1 st _ Hk1), ?(onAgent_stored raw2 st _ Hk2),
      ?(onAgent_throws raw1 st Hk1), ?(onAgent_throws raw2 st Hk2);
    cbn [mbind option_bind];
    rewrite ?(onAgent_dropped raw1 _ Hk1), ?(onAgent_dropped raw2 _ Hk2),
      ?(onAgent_stored raw1 _ _ Hk1), ?(onAgent_stored raw2 _ _ Hk2),
      ?(onAgent_throws raw1 _ Hk1), ?(onAgent_throws raw2 _ Hk2);
    try done.
  f_equal. destruct st. unfold setEvents.
  cbn [question topKSources docs docId events finalResult errorMsg
       isStreaming eventSourceRef sources].
  rewrite insert_insert_ne; [done|congruence].
Qed.

Lemma stopStream_after_error f m st :
  stopStream (setEvents f (setErrorMsg m (stopStream st)))
  = setEvents f (setErrorMsg m (stopStream st)).
Proof.
  unfold stopStream. destruct st as [? ? ? ? ? ? ? ? [i|] ?]; reflexivity.
Qed.

Lemma setEvents_insert_twice key (w : AgentEvent) m st :
  setEvents (λ prev, <[key := w]> prev)
    (setErrorMsg m (setEvents (λ prev, <[key := w]> prev) (setErrorMsg m st)))
  = setEvents (λ prev, <[key := w]> prev) (setErrorMsg m st).
Proof.
  destruct st. unfold setEvents, setErrorMsg.
  cbn [question topKSources docs docId events finalResult errorMsg
       isStreaming eventSourceRef sources].
  by rewrite insert_insert_eq.
Qed.

(** X16. A second transport error changes nothing: once [es.onerror] has
    run, running it again gives the same state. *)
Theorem onError_idempotent st st' :
  onError st = Some st' → onError st' = Some st'.
Proof.
  intros (v & Hv & ->)%onError_inv.
  set (w := with_status v _).
  assert (events (setEvents (λ prev, <["verify" := w]> prev)
                    (setErrorMsg (VStr streamErrorMsg) (stopStream st)))
            !! "verify" = Some w) as Hw
    by (rewrite events_setEvents; apply lookup_insert_eq).
  rewrite (onError_some _ _ Hw). f_equal.
  assert (with_status w
            (if is_str (status w) "done" then VStr "done" else VStr "error")
          = w) as ->.
  { subst w. unfold with_status.
    cbn [agent status summary ms details].
    by destruct (is_str (status v) "done"). }
  rewrite stopStream_after_error. apply setEvents_insert_twice.
Qed.

(** *** What sets the phase *)

(** X17. Once the document list has arrived with a named first document
    and a question that is not blank has been typed, the Run button is
    enabled exactly when the page is not streaming; the first document is
    the one selected. *)
Theorem run_enabled_when_ready st d (l : list string) q :
  d ≠ "" →
  all_ws q = false →
  let st' := setQuestion q (onDocsLoaded (d :: l) st) in
  docs st' = d :: l
  ∧ docId st' = d
  ∧ startable st' = true
  ∧ enabled st' ClickRun = negb (isStreaming st).
Proof.
  intros Hd Hq st'.
  assert (String.eqb (trim q) "" = false) as Ht.
  { apply String.eqb_neq. intros Hn%trim_empty_iff. congruence. }
  assert (String.eqb d "" = false) as Hd' by by apply String.eqb_neq.
  subst st'. unfold startable. simpl. rewrite Ht, Hd'.
  split_and!; try done. by rewrite !orb_false_r.
Qed.

(** X18. Only a start that passes validation sets [isStreaming], and only
    a final event with no error and a truthy payload puts a result in
    place: every other handler leaves [isStreaming] unset if it was, and
    leaves the result as it was or clears it. *)
Theorem what_sets_streaming_and_result a st st' :
  handle a st = Some st' →
  (isStreaming st' = true →
     isStreaming st = true ∨ (a = ClickRun ∧ startable st = true))
  ∧ (finalResult st' = finalResult st
     ∨ finalResult st' = VNull
     ∨ ∃ i raw, a = EsFinal i raw
                ∧ finalResult st' = safeJsonParse raw
                ∧ truthy (get (safeJsonParse raw) "error") = false
                ∧ truthy (safeJsonParse raw) = true).
Proof.
  intros Ha.
  destruct a as [| | |q|d|n|l|m|i raw|i raw|i]; simpl in Ha;
    try (injection Ha as <-).
  - destruct (startable st) eqn:Hs.
    + rewrite (startStream_valid _ Hs). simpl. naive_solver.
    + rewrite (startStream_invalid _ Hs). simpl. naive_solver.
  - destruct (stopStream_fields st) as (-> & _ & _ & _ & ->). naive_solver.
  - simpl. naive_solver.
  - simpl. naive_solver.
  - simpl. naive_solver.
  - simpl. naive_solver.
  - unfold onDocsLoaded. destruct l; simpl; naive_solver.
  - simpl. naive_solver.
  - destruct (onAgent_fields _ _ _ Ha) as (_ & _ & -> & _ & ->).
    naive_solver.
  - destruct (onFinal_fields raw st) as (_ & -> & _). split; [done|].
    unfold onFinal.
    set (st1 := if truthy (get (safeJsonParse raw) "error") then _ else _).
    destruct (stopStream_fields st1) as (_ & _ & _ & _ & ->). subst st1.
    destruct (truthy (get (safeJsonParse raw) "error")) eqn:He; [by left|].
    destruct (truthy (safeJsonParse raw)) eqn:Hd; [|by left].
    right; right. by exists i, raw.
  - apply onError_inv in Ha as (v & _ & ->).
    destruct (stopStream_fields st) as (Hi & _ & _ & _ & Hf).
    split.
    + intros Hs.
      change (isStreaming (stopStream st) = true) in Hs. congruence.
    + left. exact Hf.
Qed.

End Further.

(** ** The further properties on concrete runs *)

Section FurtherExamples.

Local Existing Instance sampleBuiltins.

(** An identifier that is not a stage name but turns into one: the array
    [["verify"]] overwrites the [verify] entry. *)
Example array_agent_overwrites_verify :
  isStageName (get (safeJsonParse (B := richBuiltins) arrayAgentText) "agent")
    = false
  ∧ stageKey (B := richBuiltins) arrayAgentText = Stored "verify"
  ∧ (status <$> events runningState !! "verify") = Some (VStr "idle")
  ∧ ∃ st', onAgent (B := richBuiltins) arrayAgentText runningState = Some st'
           ∧ (status <$> events st' !! "verify") = Some (VStr "error").
Proof.
  split; [vm_compute; reflexivity|]. split; [vm_compute; reflexivity|].
  split; [vm_compute; reflexivity|].
  eexists. split; [vm_compute; reflexivity|]. vm_compute. reflexivity.
Qed.

(** An identifier that cannot be turned into a key: an object with a
    [toString] property of its own makes the update throw. *)
Example own_toString_agent_throws :
  truthy (get (safeJsonParse (B := richBuiltins) ownToStringText) "agent")
    = true
  ∧ stageKey (B := richBuiltins) ownToStringText = Throws
  ∧ onAgent (B := richBuiltins) ownToStringText runningState = None
  ∧ handleAll (B := richBuiltins)
      (readyActions ++ [ClickRun; EsAgent 0 ownToStringText])%list
      initialState = None.
Proof. split_and!; vm_compute; reflexivity. Qed.

(** X1, witness: the state after a click on Run. *)
Lemma stages_kept_and_onerror_returns_witness :
  handleAll (readyActions ++ [ClickRun])%list initialState = Some runningState
  ∧ is_Some (onError runningState).
Proof.
  assert (handleAll (readyActions ++ [ClickRun])%list initialState
          = Some runningState) as Hrun by (vm_compute; reflexivity).
  split; [exact Hrun|].
  exact (proj2 (stages_kept_and_onerror_returns _ _ Hrun)).
Defined.

(** X2, witness: the state after a click on Run. *)
Lemma reference_tracks_streaming_witness :
  handleAll (readyActions ++ [ClickRun])%list initialState = Some runningState
  ∧ match eventSourceRef runningState with
    | Some i => isStreaming runningState = true ∧ is_open runningState i = true
    | None => isStreaming runningState = false
    end.
Proof.
  assert (handleAll (readyActions ++ [ClickRun])%list initialState
          = Some runningState) as Hrun by (vm_compute; reflexivity).
  split; [exact Hrun|].
  exact (reference_tracks_streaming _ _ Hrun).
Defined.

(** X3, witness: the source of the first run. *)
Lemma sources_are_well_formed_witness :
  handleAll (readyActions ++ [ClickRun])%list initialState = Some runningState
  ∧ Forall (λ e, wellFormedSource e = true) (sources runningState).
Proof.
  assert (handleAll (readyActions ++ [ClickRun])%list initialState
          = Some runningState) as Hrun by (vm_compute; reflexivity).
  split; [exact Hrun|].
  exact (sources_are_well_formed _ _ Hrun).
Defined.

(** X4, witness: a run is stopped and another one started. *)
Lemma sources_only_grow_witness :
  handleAll [ClickStop; ClickRun] runningState
    = Some (startStream (stopStream runningState))
  ∧ (length (sources runningState)
     ≤ length (sources (startStream (stopStream runningState))))%nat.
Proof.
  assert (handleAll [ClickStop; ClickRun] runningState
          = Some (startStream (stopStream runningState))) as Hrun
    by reflexivity.
  split; [exact Hrun|].
  exact (proj1 (sources_only_grow [ClickStop; ClickRun] runningState _ Hrun)).
Defined.

(** X5, witness: the session up to the click on Run. *)
Lemma session_open_count_witness :
  session (readyActions ++ [ClickRun])%list initialState = Some runningState
  ∧ length (openSources runningState)
    = (if isStreaming runningState then 1 else 0)%nat.
Proof.
  assert (session (readyActions ++ [ClickRun])%list initialState
          = Some runningState) as Hrun by (vm_compute; reflexivity).
  split; [exact Hrun|].
  exact (session_open_count _ _ Hrun).
Defined.

(** X6, witness: a stage event and the final event arrive after Stop. *)
Lemma late_stream_events_ignored_witness :
  session stoppedActions initialState = Some (stopStream runningState)
  ∧ isStreaming (stopStream runningState) = false
  ∧ forallb isStreamEvent
      [EsAgent 0 (jsonText relevanceDone); EsFinal 0 (jsonText finalAnswer)]
    = true
  ∧ session
      [EsAgent 0 (jsonText relevanceDone); EsFinal 0 (jsonText finalAnswer)]
      (stopStream runningState)
    = Some (stopStream runningState).
Proof.
  assert (session stoppedActions initialState = Some (stopStream runningState))
    as Hrun by (vm_compute; reflexivity).
  assert (isStreaming (stopStream runningState) = false) as Hidle
    by (vm_compute; reflexivity).
  assert (forallb isStreamEvent
            [EsAgent 0 (jsonText relevanceDone);
             EsFinal 0 (jsonText finalAnswer)] = true) as Hlate
    by reflexivity.
  split; [exact Hrun|]. split; [exact Hidle|]. split; [exact Hlate|].
  exact (late_stream_events_ignored stoppedActions _ _ Hrun Hidle Hlate).
Defined.

(** X7, witness: Stop is clicked twice. *)
Lemma stop_when_idle_is_noop_witness :
  handleAll stoppedActions initialState = Some (stopStream runningState)
  ∧ isStreaming (stopStream runningState) = false
  ∧ stopStream (stopStream runningState) = stopStream runningState.
Proof.
  assert (handleAll stoppedActions initialState
          = Some (stopStream runningState)) as Hrun
    by (vm_compute; reflexivity).
  assert (isStreaming (stopStream runningState) = false) as Hidle
    by (vm_compute; reflexivity).
  split; [exact Hrun|]. split; [exact Hidle|].
  exact (stop_when_idle_is_noop stoppedActions _ Hrun Hidle).
Defined.

(** X8, witness: the page with a document and a question. *)
Lemma run_button_start_succeeds_witness :
  enabled readyState ClickRun = true
  ∧ overallStatus (startStream readyState) = RUNNING.
Proof.
  assert (enabled readyState ClickRun = true) as Hen
    by (vm_compute; reflexivity).
  split; [exact Hen|].
  exact (proj2 (proj2 (proj2 (proj2 (proj2
    (run_button_start_succeeds readyState Hen)))))).
Defined.

(** X9, witness: the list fails to load, a question is typed and
    [startStream] is called. *)
Lemma no_document_no_stream_witness :
  forallb selectsNoDocument
    [DocsFailed (VStr "Failed to load docs: HTTP 500");
     ChangeQuestion "What is the refund policy?"; ClickRun] = true
  ∧ forallb keyConverts
      [DocsFailed (VStr "Failed to load docs: HTTP 500");
       ChangeQuestion "What is the refund policy?"; ClickRun] = true
  ∧ ∃ st, handleAll
            [DocsFailed (VStr "Failed to load docs: HTTP 500");
             ChangeQuestion "What is the refund policy?"; ClickRun]
            initialState = Some st
          ∧ sources st = []
          ∧ docId st = ""
          ∧ isStreaming st = false.
Proof.
  assert (forallb selectsNoDocument
            [DocsFailed (VStr "Failed to load docs: HTTP 500");
             ChangeQuestion "What is the refund policy?"; ClickRun] = true)
    as Hall by reflexivity.
  assert (forallb keyConverts
            [DocsFailed (VStr "Failed to load docs: HTTP 500");
             ChangeQuestion "What is the refund policy?"; ClickRun] = true)
    as Hconv by reflexivity.
  split; [exact Hall|]. split; [exact Hconv|].
  exact (no_document_no_stream _ Hall Hconv).
Defined.

(** X11, witness: a [verify] event with the number 5 for its status. *)
Lemma badge_throws_on_non_text_status_witness :
  stageKey (B := richBuiltins) numericStatusText = Stored "verify"
  ∧ "verify" ∈ AGENTS
  ∧ storesTextStatus (B := richBuiltins) numericStatusText = false
  ∧ ∃ st', onAgent (B := richBuiltins) numericStatusText runningState
             = Some st'
           ∧ traceBadges sampleToUpperCase st' = None.
Proof.
  assert (stageKey (B := richBuiltins) numericStatusText = Stored "verify")
    as Hk by (vm_compute; reflexivity).
  assert ("verify" ∈ AGENTS) as Hin
    by (apply (bool_decide_unpack _); vm_compute; exact I).
  assert (storesTextStatus (B := richBuiltins) numericStatusText = false)
    as Hbad by (vm_compute; reflexivity).
  split; [exact Hk|]. split; [exact Hin|]. split; [exact Hbad|].
  exact (badge_throws_on_non_text_status (B := richBuiltins)
           sampleToUpperCase numericStatusText runningState "verify"
           Hk Hin Hbad).
Defined.

(** X12, witness: Stop after one stage event. *)
Lemma cancel_mid_run_witness :
  startable readyState = true
  ∧ runEvents [AgentFrame (jsonText relevanceDone)] (startStream readyState)
    = Some afterRelevance
  ∧ overallStatus (stopStream afterRelevance) = IDLE.
Proof.
  assert (startable readyState = true) as Hs by (vm_compute; reflexivity).
  assert (runEvents [AgentFrame (jsonText relevanceDone)]
            (startStream readyState) = Some afterRelevance) as Hrun
    by (vm_compute; reflexivity).
  split; [exact Hs|]. split; [exact Hrun|].
  exact (proj1 (cancel_mid_run readyState
                  [AgentFrame (jsonText relevanceDone)] afterRelevance
                  Hs Hrun)).
Defined.

(** X13, witness: a reset after the [relevance] event. *)
Lemma reset_erases_stage_events_witness :
  applyFrames [jsonText relevanceDone] runningState = Some afterRelevance
  ∧ resetRun afterRelevance = resetRun runningState.
Proof.
  assert (applyFrames [jsonText relevanceDone] runningState
          = Some afterRelevance) as Hrun by (vm_compute; reflexivity).
  split; [exact Hrun|].
  exact (proj1 (proj2 (proj2
    (reset_erases_stage_events [jsonText relevanceDone] runningState
       afterRelevance Hrun)))).
Defined.

(** X14, witness: two different [verify] events. *)
Lemma later_event_replaces_earlier_witness :
  stageKey (B := richBuiltins) numericStatusText
    = stageKey (B := richBuiltins) (jsonText verifyDone)
  ∧ (onAgent (B := richBuiltins) numericStatusText runningState
       ≫= onAgent (B := richBuiltins) (jsonText verifyDone))
    = onAgent (B := richBuiltins) (jsonText verifyDone) runningState.
Proof.
  assert (stageKey (B := richBuiltins) numericStatusText
          = stageKey (B := richBuiltins) (jsonText verifyDone))
    as Hk by (vm_compute; reflexivity).
  split; [exact Hk|].
  exact (later_event_replaces_earlier (B := richBuiltins)
           numericStatusText (jsonText verifyDone) runningState Hk).
Defined.

(** X15, witness: a [relevance] event and a [verify] event. *)
Lemma different_stages_commute_witness :
  stageKey (jsonText relevanceDone) ≠ stageKey (jsonText verifyDone)
  ∧ (onAgent (jsonText verifyDone) runningState
       ≫= onAgent (jsonText relevanceDone))
    = (onAgent (jsonText relevanceDone) runningState
         ≫= onAgent (jsonText verifyDone)).
Proof.
  assert (stageKey (jsonText relevanceDone) ≠ stageKey (jsonText verifyDone))
    as Hne by (vm_compute; discriminate).
  split; [exact Hne|].
  exact (different_stages_commute (jsonText relevanceDone)
           (jsonText verifyDone) runningState Hne).
Defined.

(** X16, witness: the transport fails right after the start, twice. *)
Lemma onError_idempotent_witness :
  onError runningState = Some failedState
  ∧ onError failedState = Some failedState.
Proof.
  assert (onError runningState = Some failedState) as Herr
    by (vm_compute; reflexivity).
  split; [exact Herr|].
  exact (onError_idempotent runningState failedState Herr).
Defined.

(** X17, witness: one document, a short question. *)
Lemma run_enabled_when_ready_witness :
  "policy.pdf" ≠ ""
  ∧ all_ws "Why?" = false
  ∧ enabled (setQuestion "Why?" (onDocsLoaded ["policy.pdf"] initialState))
      ClickRun = true.
Proof.
  assert ("policy.pdf" ≠ "") as Hd by discriminate.
  assert (all_ws "Why?" = false) as Hq by reflexivity.
  split; [exact Hd|]. split; [exact Hq|].
  exact (proj2 (proj2 (proj2
    (run_enabled_when_ready initialState "policy.pdf" [] "Why?" Hd Hq)))).
Defined.

(** X18, witness: the click on Run that starts a run. *)
Lemma what_sets_streaming_and_result_witness :
  handle ClickRun readyState = Some runningState
  ∧ (isStreaming runningState = true →
       isStreaming readyState = true
       ∨ (ClickRun = ClickRun ∧ startable readyState = true)).
Proof.
  assert (handle ClickRun readyState = Some runningState) as Ha
    by reflexivity.
  split; [exact Ha|].
  exact (proj1 (what_sets_streaming_and_result ClickRun readyState
                  runningState Ha)).
Defined.

End FurtherExamples.
